(** * cbt-rls-test-go: the Cloud Bigtable / RLS test harness

    A shallow embedding of [main.go]: the harness is sequential
    orchestration of calls into the Bigtable client library, gRPC and the
    logger.  Every such call is an [event]; a harness function is a finite
    tree of events ([prog]) whose branches are the answers the library can
    give.  Properties are stated over the runs of these trees, so they hold
    for every behaviour of the storage service, and are also checked
    against a small reference model of the admin service.

    The earlier variant of the harness, without the RLS channel, has the
    same [createTable], [writeToTable], [readSingleRowFromTable] and
    [readEntireTable], word for word; the embedding of these functions
    stands for both. *)

From Stdlib Require Import ZArith String Ascii List Lia DecimalString.
From Stdlib Require DecimalZ DecimalPos.
From stdpp Require Import gmap strings.
Import ListNotations.

Local Open Scope string_scope.
Local Open Scope list_scope.

(** ** Values of the Go program *)

(** [google.golang.org/grpc/codes]. *)
Module codes.
Inductive Code : Set :=
| OK | Canceled | Unknown | InvalidArgument | DeadlineExceeded | NotFound
| AlreadyExists | PermissionDenied | ResourceExhausted | FailedPrecondition
| Aborted | OutOfRange | Unimplemented | Internal | Unavailable | DataLoss
| Unauthenticated.

Definition eqb (a b : Code) : bool :=
  match a, b with
  | OK, OK | Canceled, Canceled | Unknown, Unknown
  | InvalidArgument, InvalidArgument | DeadlineExceeded, DeadlineExceeded
  | NotFound, NotFound | AlreadyExists, AlreadyExists
  | PermissionDenied, PermissionDenied
  | ResourceExhausted, ResourceExhausted
  | FailedPrecondition, FailedPrecondition | Aborted, Aborted
  | OutOfRange, OutOfRange | Unimplemented, Unimplemented
  | Internal, Internal | Unavailable, Unavailable | DataLoss, DataLoss
  | Unauthenticated, Unauthenticated => true
  | _, _ => false
  end.
End codes.

(** [bigtable.Timestamp]: microseconds since the epoch, an int64. *)
Definition Timestamp : Set := Z.

(** Arguments of the formatting functions, and Go [error] values.  An error
    is either one that carries a gRPC status, any other error of a library,
    or one the harness builds with [fmt.Errorf]; the latter keeps its format
    string and its operands. *)
Inductive value : Set :=
| VString (s : string)
| VInt (n : Z)
| VDuration (nanos : Z)
| VTime (ts : Timestamp)
| VError (e : error)
with error : Set :=
| StatusError (c : codes.Code) (message : string)
| OtherError (text : string)
| Errorf (format : string) (args : list value).

(** [status.FromError] on a non-nil error: [Some s] when Go answers
    [(s, true)], the error carrying the status [s]; [None] when it answers
    [(_, false)], where the harness does not look at the status. *)
Record Status : Set := { Code : codes.Code; Message : string }.

Definition FromError (err : error) : option Status :=
  match err with
  | StatusError c m => Some {| Code := c; Message := m |}
  | _ => None
  end.

(** Handles on the objects that the libraries own.  A Go pointer to one of
    them is an [option]: [None] is the nil pointer. *)
Inductive AdminClient : Set := AdminClientRef (id : nat).
Inductive Client : Set := ClientRef (id : nat).
Inductive ClientConn : Set := ClientConnRef (id : nat).
Inductive Table : Set := TableRef (id : nat).

(** Options of [grpc.Dial] and of the Bigtable constructors. *)
Inductive Credentials : Set := NewDefaultCredentials.
Inductive CallOption : Set :=
| MaxCallSendMsgSize (bytes : Z)
| MaxCallRecvMsgSize (bytes : Z).
Inductive DialOption : Set :=
| WithDisableServiceConfig
| WithDefaultServiceConfig (s : string)
| WithCredentialsBundle (c : Credentials)
| WithDefaultCallOptions (cos : list CallOption).
Inductive ClientOption : Set :=
| WithEndpoint (url : string)
| WithGRPCConn (cc : option ClientConn).
Record ClientConfig : Set := { AppProfile : string }.

(** A mutation is the list of operations added to it, oldest first. *)
Inductive mutationOp : Set :=
| SetCell (family column : string) (ts : Timestamp) (value : string).
Definition Mutation : Set := list mutationOp.
Definition NewMutation : Mutation := [].
Definition Mutation_Set (m : Mutation) (family column : string)
    (ts : Timestamp) (value : string) : Mutation :=
  m ++ [SetCell family column ts value].

(** [bigtable.ReadItem] and [bigtable.Row].  A row is a Go map from family
    to items; it is listed here in the order in which [range] visits it. *)
Record ReadItem : Set := {
  ri_Row : string; ri_Column : string; ri_Timestamp : Timestamp;
  ri_Value : string
}.
Definition Row : Set := list (string * list ReadItem).

(** [bigtable.RowSet]: the harness only builds prefix ranges. *)
Inductive RowSet : Set := PrefixRange (prefix : string).

(** The contract of [bigtable.PrefixRange]: all keys starting with the
    prefix. *)
Definition RowSet_contains (rs : RowSet) (key : string) : bool :=
  match rs with PrefixRange p => String.prefix p key end.

(** ** Calls into the libraries

    The index of an event is the type of the answer.  A Go result
    [(x, err)] is a pair whose second component is [None] for a nil error.
    [TableInfo] answers with its error only: the harness discards the
    table description.  [ReadRows] answers with the rows that the service
    streams and the error that ends the stream. *)

Inductive event : Type -> Type :=
| NewAdminClient (project instance : string) (opts : list ClientOption)
  : event (option AdminClient * option error)
| AdminClose (c : option AdminClient) : event (option error)
| TableInfo (c : option AdminClient) (table : string) : event (option error)
| CreateTable (c : option AdminClient) (table : string)
  : event (option error)
| CreateColumnFamily (c : option AdminClient) (table family : string)
  : event (option error)
| DeleteTable (c : option AdminClient) (table : string)
  : event (option error)
| Dial (target : string) (opts : list DialOption)
  : event (option ClientConn * option error)
| NewClient (project instance : string) (opts : list ClientOption)
  : event (option Client * option error)
| NewClientWithConfig (project instance : string) (config : ClientConfig)
    (opts : list ClientOption)
  : event (option Client * option error)
| ClientClose (c : option Client) : event (option error)
| Open (c : option Client) (table : string) : event (option Table)
| Now : event Timestamp
| Apply (t : option Table) (row : string) (m : Mutation)
  : event (option error)
| ReadRow (t : option Table) (row : string) : event (Row * option error)
| ReadRows (t : option Table) (rs : RowSet)
  : event (list Row * option error)
| LogPrintf (format : string) (args : list value) : event unit
| LogFatalf (format : string) (args : list value) : event unit
| Sleep (nanos : Z) : event unit.

(** ** Programs over events *)

Inductive prog (R : Type) : Type :=
| Ret (r : R)
| Vis {X : Type} (e : event X) (k : X -> prog R).
Arguments Ret {R} r.
Arguments Vis {R X} e k.

Fixpoint bind {A B : Type} (p : prog A) (f : A -> prog B) : prog B :=
  match p with
  | Ret a => f a
  | Vis e k => Vis e (fun x => bind (k x) f)
  end.

#[global] Instance prog_ret : MRet prog := @Ret.
#[global] Instance prog_bind : MBind prog := fun A B f p => bind p f.

Definition call {X : Type} (e : event X) : prog X := Vis e Ret.

(** One call with its answer, and the runs of a program: the traces of
    calls it can make, with the result it then returns. *)
Inductive entry : Type :=
| Entry {X : Type} (e : event X) (x : X).

Fixpoint runs {R : Type} (p : prog R) (t : list entry) (r : R) : Prop :=
  match p with
  | Ret r' => t = [] /\ r = r'
  | Vis e k => exists x t', t = Entry e x :: t' /\ runs (k x) t' r
  end.

(** An environment answers every call from its state. *)
Definition handler (St : Type) : Type := forall X, event X -> St -> X * St.

Fixpoint exec {R St : Type} (h : handler St) (p : prog R) (s : St)
  : list entry * R * St :=
  match p with
  | Ret r => ([], r, s)
  | Vis e k =>
      let '(x, s1) := h _ e s in
      let '(t, r, s2) := exec h (k x) s1 in
      (Entry e x :: t, r, s2)
  end.

(** The result and the final state of an execution. *)
Definition outcome {R St : Type} (h : handler St) (p : prog R) (s : St)
  : R * St :=
  ((exec h p s).1.2, (exec h p s).2).

(** A program that never makes a call selected by [P]. *)
Definition selector : Type := forall X, event X -> bool.

Definition selected (P : selector) (en : entry) : bool :=
  match en with Entry e _ => P _ e end.

Fixpoint avoids {R : Type} (P : selector) (p : prog R) : Prop :=
  match p with
  | Ret _ => True
  | Vis e k => P _ e = false /\ forall x, avoids P (k x)
  end.

(** ** Formatting *)

(** The decimal form of an integer, as [%d] prints it. *)
Definition decimal (n : Z) : string := NilZero.string_of_int (Z.to_int n).

(** [fmt.Sprintf] for the verbs with which the harness builds strings:
    [%s] on a string and [%d] on an integer, and the escape [%%].  The
    operands are inserted as they are, never scanned for verbs.  A verb
    with no operand left prints as Go does, [%!v(MISSING)].  The two calls
    of the harness give each verb an operand of its type and no operand
    more; what Go prints otherwise (other verbs, operands of another type,
    surplus operands) is not modelled: such a verb is kept as written and
    surplus operands are dropped. *)
Definition formatOperand (verb : ascii) (a : value) : string :=
  match a with
  | VString s => if Ascii.eqb verb "s" then s
                 else String "%" (String verb EmptyString)
  | VInt n => if Ascii.eqb verb "d" then decimal n
              else String "%" (String verb EmptyString)
  | _ => String "%" (String verb EmptyString)
  end.

Fixpoint Sprintf (format : string) (args : list value) : string :=
  match format with
  | EmptyString => EmptyString
  | String c rest =>
      if Ascii.eqb c "%" then
        match rest with
        | EmptyString => "%!(NOVERB)"
        | String verb rest' =>
            if Ascii.eqb verb "%" then String "%" (Sprintf rest' args)
            else
              match args with
              | [] => "%!" ++ String verb "(MISSING)" ++ Sprintf rest' args
              | a :: args' => formatOperand verb a ++ Sprintf rest' args'
              end
        end
      else String c (Sprintf rest args)
  end.

(** ** Constants of [main.go] *)

Definition cbtAdminTestEndpoint : string :=
  "dns:///test-bigtableadmin.sandbox.googleapis.com".
Definition cbtDataTestEndpoint : string :=
  "dns:///test-bigtable.sandbox.googleapis.com".
Definition cbtRLSTestEndpoint : string :=
  "dns:///test-bigtablerls.sandbox.googleapis.com".
Definition rlsDefaultTarget : string :=
  "dns:///test-bigtable.sandbox.googleapis.com".

(** The JSON text of the template is written below with an apostrophe
    wherever the Go raw string has a double quote (it has no apostrophe of
    its own); [json] puts the double quotes back. *)
Definition dquote : ascii := "034"%char.

Fixpoint json (s : string) : string :=
  match s with
  | EmptyString => EmptyString
  | String c rest =>
      String (if Ascii.eqb c "'" then dquote else c) (json rest)
  end.

Definition serviceConfigTmpl : string := json "
{
  'loadBalancingConfig': [
    {
      'rls_experimental': {
        'routeLookupConfig': {
          'grpcKeybuilders': [
            {
              'names': [
                {
                  'service': 'google.bigtable.v2.Bigtable'
                }
              ],
              'headers': [
                {
                  'key': 'x-goog-request-params',
                  'names': ['x-goog-request-params']
                },
                {
                  'key': 'google-cloud-resource-prefix',
                  'names': ['google-cloud-resource-prefix']
                }
              ],
              'extraKeys': {
                'host': 'server',
                'service': 'service',
                'method': 'method'
              }
            }
          ],
          'lookupService': '%s',
          'lookupServiceTimeout' : '10s',
          'maxAge': '300s',
          'staleAge' : '240s',
          'cacheSizeBytes': 1000,
          'defaultTarget': '%s'
        },
        'routeLookupChannelServiceConfig': {
          'loadBalancingConfig': [{'grpclb': {'childPolicy': [{'pick_first': {} }] }}]
        },
        'childPolicy': [
          {
            'grpclb': {
              'childPolicy': [
                {
                  'pick_first': {}
                }
              ]
            }
          }
        ],
        'childPolicyConfigTargetFieldName': 'serviceName'
      }
    }
  ]
}".

(** Tests on texts, and the three parts of the template around its two
    verbs, used to state what the formatted document is. *)
Fixpoint countChar (c : ascii) (s : string) : nat :=
  match s with
  | EmptyString => 0
  | String c' rest => (if Ascii.eqb c' c then 1 else 0) + countChar c rest
  end.

Definition contains (needle hay : string) : bool :=
  match index 0 needle hay with Some _ => true | None => false end.

Definition hasSuffix (suffix s : string) : bool :=
  String.eqb
    (substring (String.length s - String.length suffix)
       (String.length suffix) s)
    suffix.

Definition cut (sep s : string) : string * string :=
  match index 0 sep s with
  | Some i =>
      (substring 0 i s,
       substring (i + String.length sep)
         (String.length s - (i + String.length sep)) s)
  | None => (s, EmptyString)
  end.

Definition tmplHead : string := (cut "%s" serviceConfigTmpl).1.
Definition tmplMiddle : string :=
  (cut "%s" (cut "%s" serviceConfigTmpl).2).1.
Definition tmplTail : string :=
  (cut "%s" (cut "%s" serviceConfigTmpl).2).2.

(** A line feed, for the format strings that end in one. *)
Definition LF : string := String "010"%char EmptyString.

(** ** The harness *)

Definition createDataClient (project instance endpoint appProfile : string)
    (enableDefaultTarget : bool) : prog (option Client * option error) :=
  let defaultTarget :=
    if enableDefaultTarget then rlsDefaultTarget else EmptyString in
  let serviceConfig :=
    Sprintf serviceConfigTmpl
      [VString cbtRLSTestEndpoint; VString defaultTarget] in
  '(cc, err) ← call (Dial endpoint
      [ WithDisableServiceConfig;
        WithDefaultServiceConfig serviceConfig;
        WithCredentialsBundle NewDefaultCredentials;
        WithDefaultCallOptions
          [ MaxCallSendMsgSize (Z.shiftl 1 28);
            MaxCallRecvMsgSize (Z.shiftl 1 28) ] ]);
  match err with
  | Some e => Ret (None, Some e)
  | None =>
      let opts := [WithGRPCConn cc] in
      if negb (String.eqb appProfile EmptyString) then
        call (NewClientWithConfig project instance
                {| AppProfile := appProfile |} opts)
      else call (NewClient project instance opts)
  end.

Definition createTable (adminClient : option AdminClient)
    (tableID columnFamily : string) : prog (option error) :=
  err ← call (TableInfo adminClient tableID);
  match err with
  | None => Ret None
  | Some err =>
      match FromError err with
      | None => (* not ok: a non-status error *)
          Ret (Some (Errorf "failed to read table %q: %v"
                       [VString tableID; VError err]))
      | Some s =>
      if negb (codes.eqb (Code s) codes.NotFound) then
        Ret (Some (Errorf "failed to read rable %q: %s"
                     [VString tableID; VString (Message s)]))
      else
        err ← call (CreateTable adminClient tableID);
        match err with
        | Some err =>
            Ret (Some (Errorf "table creation using admin client failed: %v"
                         [VError err]))
        | None =>
            err ← call (CreateColumnFamily adminClient tableID columnFamily);
            match err with
            | Some err =>
                Ret (Some (Errorf
                  "column family creation using admin client failed: %v"
                  [VError err]))
            | None => Ret None
            end
        end
      end
  end.

Definition greetings : list string :=
  ["Hello World!"; "Hello Bigtable!"; "Hello Golang!"].

(** The loop of [writeToTable], entered at index [i] with the greetings from
    that index on still to write. *)
Fixpoint writeLoop (table : option Table)
    (columnFamily columnQualifier rowKeyPrefix : string)
    (todo : list string) (i : Z) : prog (option error) :=
  match todo with
  | [] => Ret None
  | greeting :: todo' =>
      ts ← call Now;
      let mutation :=
        Mutation_Set NewMutation columnFamily columnQualifier ts greeting in
      err ← call (Apply table
                    (Sprintf "%s%d" [VString rowKeyPrefix; VInt i]) mutation);
      match err with
      | Some err => Ret (Some err)
      | None =>
          call (LogPrintf ("Wrote greeting %q to table" ++ LF)
                  [VString greeting]);;
          writeLoop table columnFamily columnQualifier rowKeyPrefix todo'
            (i + 1)
      end
  end.

Definition writeToTable (client : option Client)
    (tableID columnFamily columnQualifier rowKeyPrefix : string)
  : prog (option error) :=
  table ← call (Open client tableID);
  match table with
  | None => Ret (Some (Errorf "failed to open table %q" [VString tableID]))
  | Some _ =>
      writeLoop table columnFamily columnQualifier rowKeyPrefix greetings 0
  end.

(** [for ... range] over a list. *)
Fixpoint forRange {A : Type} (l : list A) (body : A -> prog unit)
  : prog unit :=
  match l with
  | [] => Ret tt
  | a :: l' => body a;; forRange l' body
  end.

Definition logItem (cf : string) (ri : ReadItem) : prog unit :=
  call (LogPrintf
    "Read row with ColumnFamily: %q, RowKey: %q, Column: %q, Timestamp: %v, Value: %q"
    [VString cf; VString (ri_Row ri); VString (ri_Column ri);
     VTime (ri_Timestamp ri); VString (ri_Value ri)]).

Definition logRow (row : Row) : prog unit :=
  forRange row (fun '(cf, ris) => forRange ris (logItem cf)).

Definition readSingleRowFromTable (client : option Client)
    (tableID rowKeyPrefix : string) : prog (option error) :=
  table ← call (Open client tableID);
  match table with
  | None => Ret (Some (Errorf "failed to open table %q" [VString tableID]))
  | Some _ =>
      let rowKey := Sprintf "%s%d" [VString rowKeyPrefix; VInt 0] in
      '(row, err) ← call (ReadRow table rowKey);
      match err with
      | Some _ =>
          Ret (Some (Errorf "failed to read row %q" [VString rowKey]))
      | None => logRow row;; Ret None
      end
  end.

(** [Table.ReadRows] hands the rows of the stream to the callback [f], in
    order, until [f] answers [false]; it then returns nil, and otherwise
    the error that ended the stream.  [feedRows] answers whether [f]
    accepted every row. *)
Fixpoint feedRows (f : Row -> prog bool) (rows : list Row) : prog bool :=
  match rows with
  | [] => Ret true
  | row :: rows' =>
      f row ≫= fun more : bool =>
      if more then feedRows f rows' else Ret false
  end.

Definition Table_ReadRows (t : option Table) (rs : RowSet)
    (f : Row -> prog bool) : prog (option error) :=
  '(rows, err) ← call (ReadRows t rs);
  feedRows f rows ≫= fun all : bool =>
  Ret (if all then err else None).

Definition readEntireTable (client : option Client)
    (tableID rowKeyPrefix : string) : prog (option error) :=
  table ← call (Open client tableID);
  match table with
  | None => Ret (Some (Errorf "failed to open table %q" [VString tableID]))
  | Some _ =>
      let printRow (row : Row) : prog bool := logRow row;; Ret true in
      err ← Table_ReadRows table (PrefixRange rowKeyPrefix) printRow;
      match err with
      | Some err =>
          Ret (Some (Errorf "failed to read rows from table %q: %v"
                       [VString tableID; VError err]))
      | None => Ret None
      end
  end.

(** The options with which [createDataClient] dials, for a service
    configuration document. *)
Definition dialOptions (serviceConfig : string) : list DialOption :=
  [ WithDisableServiceConfig;
    WithDefaultServiceConfig serviceConfig;
    WithCredentialsBundle NewDefaultCredentials;
    WithDefaultCallOptions
      [ MaxCallSendMsgSize (Z.shiftl 1 28);
        MaxCallRecvMsgSize (Z.shiftl 1 28) ] ].

(** The document that [createDataClient] formats: the parts of the
    template around the lookup service and the default target. *)
Definition serviceConfigOf (enableDefaultTarget : bool) : string :=
  (tmplHead ++ cbtRLSTestEndpoint ++ tmplMiddle
   ++ (if enableDefaultTarget then rlsDefaultTarget else EmptyString)
   ++ tmplTail)%string.

(** The calls of one successful pass through the loop of [writeToTable],
    for the greeting at index [i] and the time [ts] that the clock
    answered, and those of successive passes from index [i] on. *)
Definition writeEntries (table : option Table)
    (columnFamily columnQualifier rowKeyPrefix greeting : string) (i : Z)
    (ts : Timestamp) : list entry :=
  [ Entry Now ts;
    Entry (Apply table (rowKeyPrefix ++ decimal i)%string
             [SetCell columnFamily columnQualifier ts greeting]) None;
    Entry (LogPrintf ("Wrote greeting %q to table" ++ LF)%string
             [VString greeting]) tt ].

Fixpoint written (table : option Table)
    (columnFamily columnQualifier rowKeyPrefix : string)
    (done : list string) (i : Z) (tss : list Timestamp) : list entry :=
  match done, tss with
  | greeting :: done', ts :: tss' =>
      writeEntries table columnFamily columnQualifier rowKeyPrefix greeting
        i ts
      ++ written table columnFamily columnQualifier rowKeyPrefix done'
           (i + 1) tss'
  | _, _ => []
  end.

(** The mutation that an entry applies, with its table, row key and
    answer, and whether the entry is a mutation that the service refused. *)
Definition applyOf (en : entry)
  : option (option Table * string * Mutation * option error) :=
  match en with
  | Entry e x =>
      match e in event X return X -> option _ with
      | Apply t row m => fun x => Some (t, row, m, x)
      | _ => fun _ => None
      end x
  end.

Definition failedApply (en : entry) : bool :=
  match applyOf en with
  | Some (_, Some _) => true
  | _ => false
  end.

(** The lines that printing a row logs: one for each item of each family,
    in the order of the visit. *)
Definition itemEntry (cf : string) (ri : ReadItem) : entry :=
  Entry (LogPrintf
    "Read row with ColumnFamily: %q, RowKey: %q, Column: %q, Timestamp: %v, Value: %q"
    [VString cf; VString (ri_Row ri); VString (ri_Column ri);
     VTime (ri_Timestamp ri); VString (ri_Value ri)]) tt.

Definition rowEntries (row : Row) : list entry :=
  flat_map (fun '(cf, ris) => map (itemEntry cf) ris) row.

(** The calls that delete a table, and those that read rows. *)
Definition isDeleteTable : selector := fun X e =>
  match e with DeleteTable _ _ => true | _ => false end.

Definition isRead : selector := fun X e =>
  match e with ReadRow _ _ | ReadRows _ _ => true | _ => false end.

(** The command line flags, with their defaults. *)
Module flag.
Record t : Set := {
  projectID : string;
  instanceID : string;
  tableID : string;
  columnFamily : string;
  columnQualifier : string;
  rowKeyPrefix : string;
  appProfile : string;
  enableDefaultTarget : bool;
  skipTableDeletion : bool
}.

Definition defaults : t := {|
  projectID := "directpath-prod-manual-testing";
  instanceID := "blackbox-us-central1-b";
  tableID := "easwars-test-table";
  columnFamily := "cf1";
  columnQualifier := "greeting";
  rowKeyPrefix := "row_key_";
  appProfile := EmptyString;
  enableDefaultTarget := false;
  skipTableDeletion := false
|}.
End flag.

(** How the process ends: [main] returns, or [log.Fatalf] exits with
    status 1 after printing, in which case no deferred call runs. *)
Inductive exit : Set := Returned | Exited (status : Z).

Definition Fatalf (format : string) (args : list value) : prog exit :=
  call (LogFatalf format args);; Ret (Exited 1).

(** [time.Second], in nanoseconds. *)
Definition Second : Z := 1000000000.

Definition main (f : flag.t) : prog exit :=
  call (LogPrintf "Running CBT RLS Test on project %q and instance %q..."
          [VString (flag.projectID f); VString (flag.instanceID f)]);;
  '(adminClient, err) ← call (NewAdminClient (flag.projectID f)
      (flag.instanceID f) [WithEndpoint cbtAdminTestEndpoint]);
  match err with
  | Some err =>
      Fatalf "Bigtable admin client creation failed: %v" [VError err]
  | None =>
  '(dataClient, err) ← createDataClient (flag.projectID f)
      (flag.instanceID f) cbtDataTestEndpoint (flag.appProfile f)
      (flag.enableDefaultTarget f);
  match err with
  | Some err =>
      Fatalf "Bigtable data client creation failed: %v" [VError err]
  | None =>
  (* the deferred calls, run when main returns *)
  let deferred : prog exit :=
    call (ClientClose dataClient);; call (AdminClose adminClient);;
    Ret Returned in
  call (LogPrintf
          ("Attempting to create table %q with columnFamily %q..." ++ LF)
          [VString (flag.tableID f); VString (flag.columnFamily f)]);;
  err ← createTable adminClient (flag.tableID f) (flag.columnFamily f);
  match err with
  | Some err =>
      Fatalf "Table creation using admin client failed: %v" [VError err]
  | None =>
  call (LogPrintf ("Table %q with columnFamily %q created" ++ LF)
          [VString (flag.tableID f); VString (flag.columnFamily f)]);;
  let tableCreationWaitDuration := (15 * Second)%Z in
  call (LogPrintf "Waiting %v for table creation to take effect..."
          [VDuration tableCreationWaitDuration]);;
  call (Sleep tableCreationWaitDuration);;
  call (LogPrintf
          ("Attempting to write some greetings to table %q..." ++ LF)
          [VString (flag.tableID f)]);;
  err ← writeToTable dataClient (flag.tableID f) (flag.columnFamily f)
          (flag.columnQualifier f) (flag.rowKeyPrefix f);
  match err with
  | Some err =>
      Fatalf "Writing to table using data client failed: %v" [VError err]
  | None =>
  call (LogPrintf
          ("Attempting to read a single row from table %q..." ++ LF)
          [VString (flag.tableID f)]);;
  err ← readSingleRowFromTable dataClient (flag.tableID f)
          (flag.rowKeyPrefix f);
  match err with
  | Some err =>
      Fatalf "Reading single row from table using data client failed: %v"
        [VError err]
  | None =>
  call (LogPrintf ("Attempting to read the entire table %q..." ++ LF)
          [VString (flag.tableID f)]);;
  err ← readEntireTable dataClient (flag.tableID f) (flag.rowKeyPrefix f);
  match err with
  | Some err =>
      Fatalf "Reading entrire table using data client failed: %v"
        [VError err]
  | None =>
  if flag.skipTableDeletion f then deferred
  else
    call (LogPrintf ("Attempting to delete table %q..." ++ LF)
            [VString (flag.tableID f)]);;
    err ← call (DeleteTable adminClient (flag.tableID f));
    match err with
    | Some err =>
        Fatalf "Failed to delete table %q: %v"
          [VString (flag.tableID f); VError err]
    | None =>
        call (LogPrintf ("Table %q deleted" ++ LF)
                [VString (flag.tableID f)]);;
        deferred
    end
  end end end end end end.

(** ** A reference model of the storage admin service

    The collaborator of section 4.2 of the specification: a store of
    tables, each with its column families in the order of their creation.
    The existence check answers [NotFound] for an absent table; creating
    what exists and touching what does not are refused.  The data plane is
    not modelled: its calls succeed and read nothing. *)
Module Ref.
Abbreviation store := (gmap string (list string)).

Definition notFound : error :=
  StatusError codes.NotFound "table not found".
Definition alreadyExists : error :=
  StatusError codes.AlreadyExists "already exists".

Definition tableInfo (table : string) (s : store) : option error * store :=
  match s !! table with
  | Some _ => (None, s)
  | None => (Some notFound, s)
  end.

Definition createTable (table : string) (s : store)
  : option error * store :=
  match s !! table with
  | Some _ => (Some alreadyExists, s)
  | None => (None, <[table := []]> s)
  end.

Definition createColumnFamily (table family : string) (s : store)
  : option error * store :=
  match s !! table with
  | None => (Some notFound, s)
  | Some families =>
      if existsb (String.eqb family) families
      then (Some alreadyExists, s)
      else (None, <[table := families ++ [family]]> s)
  end.

Definition deleteTable (table : string) (s : store)
  : option error * store :=
  match s !! table with
  | None => (Some notFound, s)
  | Some _ => (None, delete table s)
  end.

Definition answer : handler store := fun X e =>
  match e in event X return store -> X * store with
  | NewAdminClient _ _ _ => fun s => ((Some (AdminClientRef 0), None), s)
  | AdminClose _ => fun s => (None, s)
  | TableInfo _ table => tableInfo table
  | CreateTable _ table => createTable table
  | CreateColumnFamily _ table family => createColumnFamily table family
  | DeleteTable _ table => deleteTable table
  | Dial _ _ => fun s => ((Some (ClientConnRef 0), None), s)
  | NewClient _ _ _ => fun s => ((Some (ClientRef 0), None), s)
  | NewClientWithConfig _ _ _ _ =>
      fun s => ((Some (ClientRef 0), None), s)
  | ClientClose _ => fun s => (None, s)
  | Open _ _ => fun s => (Some (TableRef 0), s)
  | Now => fun s => (0%Z, s)
  | Apply _ _ _ => fun s => (None, s)
  | ReadRow _ _ => fun s => (([], None), s)
  | ReadRows _ _ => fun s => (([], None), s)
  | LogPrintf _ _ => fun s => (tt, s)
  | LogFatalf _ _ => fun s => (tt, s)
  | Sleep _ => fun s => (tt, s)
  end.
End Ref.

(** ** The route resolver of the specification *)

Module Router.
(** Modelled from the spec: the route resolver of section 4.1, with the data
    model of section 3.  The repository has no resolver of its own (routing
    is left to the RLS policy of gRPC, which the harness only configures),
    so every definition of this module follows the words of the
    specification.  A route key is an ordered tuple of strings. *)
Definition RouteKey : Set := list string.

(** Modelled from the spec: a pattern is exact or a wildcard. *)
Inductive Pattern : Set :=
| Exact (key : RouteKey)
| Wildcard.

(** Modelled from the spec: a rule maps a route-key pattern to a
    destination target string. *)
Record Rule : Set := { pattern : Pattern; target : string }.

(** Modelled from the spec: a routing table is an ordered sequence of
    rules plus a default target; an empty default target means that none
    is configured (scenario 5 of section 8). *)
Record RoutingTable : Set := {
  rules : list Rule;
  defaultTarget : string
}.

(** Modelled from the spec: the failure of the resolver when no rule
    matches and no default target is configured. *)
Inductive RouteError : Set := NoRouteError.

(** Modelled from the spec: a wildcard matches every key, an exact pattern
    the key it holds. *)
Definition matches (p : Pattern) (key : RouteKey) : bool :=
  match p with
  | Wildcard => true
  | Exact key' => bool_decide (key' = key)
  end.

(** Modelled from the spec: insertion order determines precedence, a rule
    is inserted behind the rules already in the table. *)
Definition insertRule (r : Rule) (tbl : RoutingTable) : RoutingTable :=
  {| rules := rules tbl ++ [r]; defaultTarget := defaultTarget tbl |}.

(** Modelled from the spec: the table is constructed once from static
    configuration, here by inserting the configured rules in order into
    the table that has only the default target. *)
Definition build (default : string) (inserted : list Rule) : RoutingTable :=
  fold_left (fun tbl r => insertRule r tbl) inserted
    {| rules := []; defaultTarget := default |}.

(** Modelled from the spec: iterate the rules in table order; the first
    rule whose pattern matches the key wins. *)
Fixpoint firstMatch (rs : list Rule) (key : RouteKey) : option Rule :=
  match rs with
  | [] => None
  | r :: rs' => if matches (pattern r) key then Some r else firstMatch rs' key
  end.

(** Modelled from the spec: the target of the first matching rule; if no
    rule matches, the default target when one is configured, and
    [NoRouteError] otherwise. *)
Definition resolve (tbl : RoutingTable) (key : RouteKey)
  : string + RouteError :=
  match firstMatch (rules tbl) key with
  | Some r => inl (target r)
  | None =>
      if String.eqb (defaultTarget tbl) EmptyString then inr NoRouteError
      else inl (defaultTarget tbl)
  end.
End Router.

(** ** More selectors and projections of traces *)

(** The calls that close a client, the fatal log line, the calls on the
    data of a table, and the wait of [main] after the creation of the
    table. *)
Definition isClose : selector := fun X e =>
  match e with ClientClose _ | AdminClose _ => true | _ => false end.

Definition isFatal : selector := fun X e =>
  match e with LogFatalf _ _ => true | _ => false end.

Definition isCloseOrFatal : selector := fun X e =>
  isClose X e || isFatal X e.

Definition isDataCall : selector := fun X e =>
  match e with
  | Open _ _ | Apply _ _ _ | ReadRow _ _ | ReadRows _ _ => true
  | _ => false
  end.


Definition isLogPrintf : selector := fun X e =>
  match e with LogPrintf _ _ => true | _ => false end.

Definition isDial : selector := fun X e =>
  match e with Dial _ _ => true | _ => false end.

(** The calls that name a table other than [tableID], or that create a
    column family other than [family]. *)
Definition namesOther (tableID family : string) : selector := fun X e =>
  match e with
  | TableInfo _ t | CreateTable _ t | DeleteTable _ t | Open _ t =>
      negb (String.eqb t tableID)
  | CreateColumnFamily _ t fam =>
      negb (String.eqb t tableID) || negb (String.eqb fam family)
  | _ => false
  end.



Definition acceptedApply (en : entry) : bool :=
  match applyOf en with
  | Some (_, None) => true
  | _ => false
  end.

(** The data client that an entry constructs, if it is the successful
    call of a constructor. *)
Definition constructedClient (en : entry) : option (option Client) :=
  match en with
  | Entry e x =>
      match e in event X return X -> option (option Client) with
      | NewClient _ _ _ | NewClientWithConfig _ _ _ _ =>
          fun x => match x.2 with None => Some x.1 | Some _ => None end
      | _ => fun _ => None
      end x
  end.

(** ** The variant of the harness without the RLS channel

    The second program of the repository: the same stages, with a data
    client made by the library for an endpoint, and no flag to skip the
    deletion of the table. *)
Module Plain.
Definition cbtAdminTestEndpoint : string :=
  "test-bigtableadmin.sandbox.googleapis.com:443".
Definition cbtDataTestEndpoint : string :=
  "test-bigtable.sandbox.googleapis.com:443".

Record flags : Set := {
  projectID : string;
  instanceID : string;
  tableID : string;
  columnFamily : string;
  columnQualifier : string;
  rowKeyPrefix : string
}.

Definition main (f : flags) : prog exit :=
  call (LogPrintf "Running CBT RLS Test on project %q and instance %q..."
          [VString (projectID f); VString (instanceID f)]);;
  '(adminClient, err) ← call (NewAdminClient (projectID f) (instanceID f)
      [WithEndpoint cbtAdminTestEndpoint]);
  match err with
  | Some err =>
      Fatalf "Bigtable admin client creation failed: %v" [VError err]
  | None =>
  '(dataClient, err) ← call (NewClient (projectID f) (instanceID f)
      [WithEndpoint cbtDataTestEndpoint]);
  match err with
  | Some err =>
      Fatalf "Bigtable data client creation failed: %v" [VError err]
  | None =>
  (* the deferred calls, run when main returns *)
  let deferred : prog exit :=
    call (ClientClose dataClient);; call (AdminClose adminClient);;
    Ret Returned in
  call (LogPrintf
          ("Attempting to create table %q with columnFamily %q..." ++ LF)
          [VString (tableID f); VString (columnFamily f)]);;
  err ← createTable adminClient (tableID f) (columnFamily f);
  match err with
  | Some err =>
      Fatalf "Table creation using admin client failed: %v" [VError err]
  | None =>
  call (LogPrintf ("Table %q with columnFamily %q created" ++ LF)
          [VString (tableID f); VString (columnFamily f)]);;
  let tableCreationWaitDuration := (15 * Second)%Z in
  call (LogPrintf "Waiting %v for table creation to take effect..."
          [VDuration tableCreationWaitDuration]);;
  call (Sleep tableCreationWaitDuration);;
  call (LogPrintf
          ("Attempting to write some greetings to table %q..." ++ LF)
          [VString (tableID f)]);;
  err ← writeToTable dataClient (tableID f) (columnFamily f)
          (columnQualifier f) (rowKeyPrefix f);
  match err with
  | Some err =>
      Fatalf "Writing to table using data client failed: %v" [VError err]
  | None =>
  call (LogPrintf
          ("Attempting to read a single row from table %q..." ++ LF)
          [VString (tableID f)]);;
  err ← readSingleRowFromTable dataClient (tableID f) (rowKeyPrefix f);
  match err with
  | Some err =>
      Fatalf "Reading single row from table using data client failed: %v"
        [VError err]
  | None =>
  call (LogPrintf ("Attempting to read the entire table %q..." ++ LF)
          [VString (tableID f)]);;
  err ← readEntireTable dataClient (tableID f) (rowKeyPrefix f);
  match err with
  | Some err =>
      Fatalf "Reading entrire table using data client failed: %v"
        [VError err]
  | None =>
  call (LogPrintf ("Attempting to delete table %q..." ++ LF)
          [VString (tableID f)]);;
  err ← call (DeleteTable adminClient (tableID f));
  match err with
  | Some err =>
      Fatalf "Failed to delete table %q: %v"
        [VString (tableID f); VError err]
  | None =>
      call (LogPrintf ("Table %q deleted" ++ LF) [VString (tableID f)]);;
      deferred
  end
  end end end end end end.
End Plain.

(** ** The program that lists the tables

    The third program of the repository: it makes an admin client with the
    default options, asks it for the tables of the instance and prints
    them.  It has two calls that the harness does not make, so that it
    has its own events. *)
Module ListTables.
Inductive event : Type -> Type :=
| NewAdminClient (project instance : string)
  : event (option AdminClient * option error)
| Close (c : option AdminClient) : event (option error)
| Tables (c : option AdminClient) : event (list string * option error)
| Println (tables : list string) : event (Z * option error)
| LogFatalf (format : string) (args : list value) : event unit.

Inductive prog (R : Type) : Type :=
| Ret (r : R)
| Vis {X : Type} (e : event X) (k : X -> prog R).
Arguments Ret {R} r.
Arguments Vis {R X} e k.

Inductive entry : Type :=
| Entry {X : Type} (e : event X) (x : X).

Fixpoint runs {R : Type} (p : prog R) (t : list entry) (r : R) : Prop :=
  match p with
  | Ret r' => t = [] /\ r = r'
  | Vis e k => exists x t', t = Entry e x :: t' /\ runs (k x) t' r
  end.

Record flags : Set := { project : string; cbtInstance : string }.

Definition main (f : flags) : prog exit :=
  Vis (NewAdminClient (project f) (cbtInstance f)) (fun '(client, err) =>
  match err with
  | Some err =>
      Vis (LogFatalf "Bigtable admin client creation failed: %v"
             [VError err]) (fun _ => Ret (Exited 1))
  | None =>
  Vis (Tables client) (fun '(tables, err) =>
  match err with
  | Some err =>
      Vis (LogFatalf
             "Failed to read tables using the Bigtable admin client: %v"
             [VError err]) (fun _ => Ret (Exited 1))
  | None =>
  Vis (Println tables) (fun _ =>
  (* the deferred call *)
  Vis (Close client) (fun _ => Ret Returned))
  end)
  end).
End ListTables.

(** ** Runs of programs *)

Section Runs.
Context {A B : Type}.

Lemma runs_Ret (a : A) (t : list entry) (r : A) :
  runs (Ret a) t r <-> t = [] /\ r = a.
Proof. reflexivity. Qed.

Lemma runs_call {X : Type} (e : event X) (t : list entry) (r : X) :
  runs (call e) t r <-> t = [Entry e r].
Proof.
  unfold call; simpl; split.
  - intros (x & t' & -> & -> & ->); reflexivity.
  - intros ->; exists r, []; auto.
Qed.

Lemma runs_bind (p : prog A) (f : A -> prog B) (t : list entry) (r : B) :
  runs (bind p f) t r <->
  exists t1 a t2, runs p t1 a /\ runs (f a) t2 r /\ t = t1 ++ t2.
Proof.
  revert t; induction p as [a | X e k IH]; intros t; simpl.
  - split.
    + intros H; exists [], a, t; auto.
    + intros (t1 & a' & t2 & [-> ->] & H & ->); exact H.
  - split.
    + intros (x & t' & -> & H).
      apply IH in H as (t1 & a & t2 & H1 & H2 & ->).
      exists (Entry e x :: t1), a, t2; repeat split; eauto.
    + intros (t1 & a & t2 & (x & t' & -> & H1) & H2 & ->).
      exists x, (t' ++ t2); split; [reflexivity |].
      apply IH; eauto 6.
Qed.

Lemma runs_mbind (p : prog A) (f : A -> prog B) (t : list entry) (r : B) :
  runs (p ≫= f) t r <->
  exists t1 a t2, runs p t1 a /\ runs (f a) t2 r /\ t = t1 ++ t2.
Proof. apply runs_bind. Qed.
End Runs.

(** Every execution against an environment is a run. *)
Lemma exec_runs {R St : Type} (h : handler St) (p : prog R) (s : St) :
  runs p (exec h p s).1.1 (exec h p s).1.2.
Proof.
  revert s; induction p as [r | X e k IH]; intros s; simpl.
  - auto.
  - destruct (h X e s) as [x s1] eqn:Hx.
    specialize (IH x s1).
    destruct (exec h (k x) s1) as [[t r] s2]; simpl in *.
    exists x, t; auto.
Qed.

Lemma avoids_bind {A B : Type} (P : selector) (p : prog A)
    (f : A -> prog B) :
  avoids P p -> (forall a, avoids P (f a)) -> avoids P (bind p f).
Proof.
  intros Hp Hf; induction p as [a | X e k IH]; simpl in *; [apply Hf |].
  destruct Hp as [He Hk]; split; auto.
Qed.

Lemma avoids_runs {R : Type} (P : selector) (p : prog R)
    (t : list entry) (r : R) :
  avoids P p -> runs p t r -> Forall (fun en => selected P en = false) t.
Proof.
  revert t; induction p as [a | X e k IH]; simpl; intros t Hp Hr.
  - destruct Hr as [-> _]; constructor.
  - destruct Hp as [He Hk], Hr as (x & t' & -> & Hr).
    constructor; [exact He | eauto].
Qed.

(** Inversion of a run of a program whose head is known. *)
Ltac run_inv H :=
  repeat first
    [ progress (cbn [runs bind mbind prog_bind call mret prog_ret
                     forRange feedRows writeLoop] in H)
    | match type of H with
      | exists _, _ =>
          let x := fresh "x" in let t := fresh "t" in
          destruct H as (x & t & -> & H)
      | _ = [] /\ _ = _ => destruct H as [-> ->]
      end ].

(** ** Table creation *)

(** Every run of [createTable] starts with the existence check and goes on
    as its answer says: nothing more when the table exists or when the
    check fails with anything but a status of code [NotFound]; the creation
    of the table, and after its success that of the column family, when
    the check answers [NotFound]. *)
Lemma createTable_runs (ac : option AdminClient) (tableID cf : string)
    (t : list entry) (r : option error) :
  runs (createTable ac tableID cf) t r ->
  exists (a : option error) (t' : list entry),
    t = Entry (TableInfo ac tableID) a :: t' /\
    match a with
    | None => t' = [] /\ r = None
    | Some (StatusError codes.NotFound _) =>
        exists (b : option error) (t'' : list entry),
          t' = Entry (CreateTable ac tableID) b :: t'' /\
          match b with
          | Some e =>
              t'' = [] /\
              r = Some (Errorf "table creation using admin client failed: %v"
                          [VError e])
          | None =>
              exists c : option error,
                t'' = [Entry (CreateColumnFamily ac tableID cf) c] /\
                r = match c with
                    | Some e =>
                        Some (Errorf
                          "column family creation using admin client failed: %v"
                          [VError e])
                    | None => None
                    end
          end
    | Some (StatusError _ m) =>
        t' = [] /\
        r = Some (Errorf "failed to read rable %q: %s"
                    [VString tableID; VString m])
    | Some err =>
        t' = [] /\
        r = Some (Errorf "failed to read table %q: %v"
                    [VString tableID; VError err])
    end.
Proof.
  unfold createTable; intros H; run_inv H.
  eexists _, _; split; [reflexivity |].
  destruct x as [[c m | text | f args] |]; simpl in H; run_inv H; auto.
  destruct c; simpl in H; run_inv H; auto.
  eexists _, _; split; [reflexivity |].
  destruct x as [e |]; run_inv H; auto.
  exists x; destruct x; run_inv H; auto.
Qed.

(** C2.  In every run of [createTable] the first call is the existence
    check, and its answer decides the rest: on success the function
    returns nil with no further call; on a status of code [NotFound] the
    next call creates the table and, once that succeeded, the last call
    creates the column family (a failed creation ends the run with an
    error); on any other error the function makes no further call and
    returns an error built from the one it received. *)
Theorem createTable_existence_check_decides (ac : option AdminClient)
    (tableID cf : string) (t : list entry) (r : option error) :
  runs (createTable ac tableID cf) t r ->
  exists (a : option error) (t' : list entry),
    t = Entry (TableInfo ac tableID) a :: t' /\
    (a = None -> t' = [] /\ r = None) /\
    (forall m, a = Some (StatusError codes.NotFound m) ->
       exists (b : option error) (t'' : list entry),
         t' = Entry (CreateTable ac tableID) b :: t'' /\
         (b = None ->
            exists c : option error,
              t'' = [Entry (CreateColumnFamily ac tableID cf) c] /\
              (c = None <-> r = None)) /\
         (b <> None -> t'' = [] /\ r <> None)) /\
    (forall c m, a = Some (StatusError c m) -> c <> codes.NotFound ->
       t' = [] /\
       r = Some (Errorf "failed to read rable %q: %s"
                   [VString tableID; VString m])) /\
    (forall e, a = Some e -> (forall c m, e <> StatusError c m) ->
       t' = [] /\
       r = Some (Errorf "failed to read table %q: %v"
                   [VString tableID; VError e])).
Proof.
  intros H; apply createTable_runs in H as (a & t' & -> & H).
  exists a, t'; split; [reflexivity |].
  split; [| split; [| split]].
  - intros ->; exact H.
  - intros m ->; destruct H as (b & t'' & -> & H).
    exists b, t''; split; [reflexivity |]; split.
    + intros ->; destruct H as (c & -> & ->); exists c; split; auto.
      destruct c; split; congruence.
    + intros Hb; destruct b as [e |]; [| congruence].
      destruct H as [-> ->]; split; congruence.
  - intros c m -> Hc; destruct c; solve [exact H | congruence].
  - intros e -> He; destruct e as [c m | |]; [| exact H | exact H].
    exfalso; eapply He; reflexivity.
Qed.

(** A run of [createTable] on an absent table, which creates it. *)
Lemma createTable_existence_check_decides_witness :
  exists (a : option error) (t' : list entry),
    [ Entry (TableInfo None "t") (Some (StatusError codes.NotFound "gone"));
      Entry (CreateTable None "t") None;
      Entry (CreateColumnFamily None "t" "cf1") None ]
    = Entry (TableInfo None "t") a :: t' /\
    (a = None -> t' = [] /\ @None error = None) /\
    (forall m, a = Some (StatusError codes.NotFound m) ->
       exists (b : option error) (t'' : list entry),
         t' = Entry (CreateTable None "t") b :: t'' /\
         (b = None ->
            exists c : option error,
              t'' = [Entry (CreateColumnFamily None "t" "cf1") c] /\
              (c = None <-> @None error = None)) /\
         (b <> None -> t'' = [] /\ @None error <> None)) /\
    (forall c m, a = Some (StatusError c m) -> c <> codes.NotFound ->
       t' = [] /\
       None = Some (Errorf "failed to read rable %q: %s"
                      [VString "t"; VString m])) /\
    (forall e, a = Some e -> (forall c m, e <> StatusError c m) ->
       t' = [] /\
       None = Some (Errorf "failed to read table %q: %v"
                      [VString "t"; VError e])).
Proof.
  apply (createTable_existence_check_decides None "t" "cf1").
  simpl; eexists _, _; split; [reflexivity |]; simpl.
  eexists _, _; split; [reflexivity |]; simpl.
  eexists _, _; split; [reflexivity |]; simpl; auto.
Defined.

(** [createTable] against the reference service: an existing table is
    left as it is after the existence check; an absent one is created
    with the column family. *)
Lemma createTable_ref (ac : option AdminClient) (tableID cf : string)
    (s : Ref.store) :
  exec Ref.answer (createTable ac tableID cf) s =
  match s !! tableID with
  | Some _ => ([Entry (TableInfo ac tableID) None], None, s)
  | None =>
      ([ Entry (TableInfo ac tableID) (Some Ref.notFound);
         Entry (CreateTable ac tableID) None;
         Entry (CreateColumnFamily ac tableID cf) None ],
       None, <[tableID := [cf]]> s)
  end.
Proof.
  unfold createTable; simpl; unfold Ref.tableInfo.
  destruct (s !! tableID) as [fams |] eqn:E; simpl; [reflexivity |].
  unfold Ref.createTable; rewrite E; simpl.
  unfold Ref.createColumnFamily; rewrite lookup_insert_eq; simpl.
  rewrite insert_insert_eq; reflexivity.
Qed.

(** C1, as stated, fails when the table is already there without the
    column family: on a service whose table [t] has the single family
    [other], [createTable] for [t] and [cf1] makes the existence check,
    returns nil, and the table still has [other] as its only family. *)
Lemma createTable_existing_table_counterexample :
  let s : Ref.store := {[ "t" := ["other"] ]} in
  let '(t, r, s') := exec Ref.answer (createTable None "t" "cf1") s in
  t = [Entry (TableInfo None "t") None] /\
  r = None /\
  s' !! "t" = Some ["other"] /\
  s' !! "t" <> Some ["cf1"].
Proof. vm_compute; repeat split; discriminate. Qed.

(** C1, amended.  A run of [createTable] that returns nil is either the
    existence check alone, answered with success, or the existence check
    answered [NotFound] followed by the successful creations of the table
    and of the column family.  On the reference service the function
    returns nil; a table that was absent then exists with exactly the
    given column family, and a table that was present is left as it was,
    its column families neither read nor changed. *)
Theorem createTable_success (ac : option AdminClient) (tableID cf : string) :
  (forall t : list entry,
     runs (createTable ac tableID cf) t None ->
     t = [Entry (TableInfo ac tableID) None] \/
     exists m : string,
       t = [ Entry (TableInfo ac tableID)
               (Some (StatusError codes.NotFound m));
             Entry (CreateTable ac tableID) None;
             Entry (CreateColumnFamily ac tableID cf) None ]) /\
  (forall s : Ref.store,
     let '(_, r, s') := exec Ref.answer (createTable ac tableID cf) s in
     r = None /\
     is_Some (s' !! tableID) /\
     match s !! tableID with
     | None => s' = <[tableID := [cf]]> s
     | Some _ => s' = s
     end).
Proof.
  split.
  - intros t H; apply createTable_runs in H as (a & t' & -> & H).
    destruct a as [[c m | |] |]; try (destruct H; discriminate).
    + destruct c; try (destruct H; discriminate).
      destruct H as (b & t'' & -> & H).
      destruct b as [e |]; [destruct H; discriminate |].
      destruct H as (c & -> & H); destruct c; [discriminate |].
      right; exists m; reflexivity.
    + destruct H as [-> _]; left; reflexivity.
  - intros s; rewrite createTable_ref.
    destruct (s !! tableID) as [fams |] eqn:E.
    + split; [reflexivity |]; split; [rewrite E; eauto | reflexivity].
    + split; [reflexivity |]; split; [| reflexivity].
      rewrite lookup_insert_eq; eauto.
Qed.

(** ** Formatting *)

Lemma Sprintf_literal (lit rest : string) (args : list value) :
  countChar "%" lit = 0 ->
  Sprintf (lit ++ rest) args = (lit ++ Sprintf rest args)%string.
Proof.
  induction lit as [| c lit IH]; [reflexivity |].
  change (String c lit ++ rest)%string with (String c (lit ++ rest)).
  change (String c lit ++ Sprintf rest args)%string
    with (String c (lit ++ Sprintf rest args)).
  cbn [countChar Sprintf].
  destruct (Ascii.eqb c "%"); [discriminate |].
  intros H; simpl in H; rewrite (IH H); reflexivity.
Qed.

Lemma Sprintf_plain (s : string) (args : list value) :
  countChar "%" s = 0 -> Sprintf s args = s.
Proof.
  induction s as [| c s IH]; cbn [countChar Sprintf]; [reflexivity |].
  destruct (Ascii.eqb c "%"); [discriminate |].
  intros H; simpl in H; rewrite (IH H); reflexivity.
Qed.

Lemma Sprintf_s (s rest : string) (args : list value) :
  Sprintf ("%s" ++ rest) (VString s :: args)
  = (s ++ Sprintf rest args)%string.
Proof. reflexivity. Qed.

Lemma Sprintf_d (n : Z) (rest : string) (args : list value) :
  Sprintf ("%d" ++ rest) (VInt n :: args)
  = (decimal n ++ Sprintf rest args)%string.
Proof. reflexivity. Qed.

Lemma append_empty_r (s : string) : (s ++ EmptyString)%string = s.
Proof.
  induction s as [| c s IH]; [reflexivity |].
  change (String c s ++ EmptyString)%string
    with (String c (s ++ EmptyString)).
  rewrite IH; reflexivity.
Qed.

(** The row keys: the prefix, as it is, followed by the decimal index. *)
Lemma rowKey_eq (rowKeyPrefix : string) (i : Z) :
  Sprintf "%s%d" [VString rowKeyPrefix; VInt i]
  = (rowKeyPrefix ++ decimal i)%string.
Proof.
  change "%s%d" with ("%s" ++ "%d" ++ EmptyString)%string.
  rewrite Sprintf_s, Sprintf_d.
  change (Sprintf EmptyString []) with EmptyString.
  rewrite append_empty_r; reflexivity.
Qed.

(** The template is its three parts around two [%s] verbs, and has no
    other verb. *)
Lemma serviceConfigTmpl_parts :
  serviceConfigTmpl
  = (tmplHead ++ "%s" ++ tmplMiddle ++ "%s" ++ tmplTail)%string /\
  countChar "%" tmplHead = 0 /\
  countChar "%" tmplMiddle = 0 /\
  countChar "%" tmplTail = 0.
Proof. vm_compute; auto. Qed.

(** Formatting the template inserts the two operands between its parts. *)
Lemma serviceConfig_eq (lookupService defaultTarget : string) :
  Sprintf serviceConfigTmpl [VString lookupService; VString defaultTarget]
  = (tmplHead ++ lookupService ++ tmplMiddle ++ defaultTarget ++ tmplTail)
      %string.
Proof.
  destruct serviceConfigTmpl_parts as (-> & Hh & Hm & Ht).
  rewrite (Sprintf_literal _ _ _ Hh), Sprintf_s.
  rewrite (Sprintf_literal _ _ _ Hm), Sprintf_s.
  rewrite (Sprintf_plain _ _ Ht); reflexivity.
Qed.

(** ** The data client *)

(** Every run of [createDataClient] dials first, with the formatted
    document; a failed dial ends the run with its error, and after a
    successful one the client constructor is the last call and its answer
    the result. *)
Lemma createDataClient_runs (project instance endpoint appProfile : string)
    (enable : bool) (t : list entry) (r : option Client * option error) :
  runs (createDataClient project instance endpoint appProfile enable) t r ->
  exists (cc : option ClientConn) (derr : option error),
    match derr with
    | Some e =>
        t = [Entry (Dial endpoint (dialOptions (serviceConfigOf enable)))
               (cc, Some e)] /\
        r = (None, Some e)
    | None =>
        t = [ Entry (Dial endpoint (dialOptions (serviceConfigOf enable)))
                (cc, None);
              Entry (if negb (String.eqb appProfile EmptyString)
                     then NewClientWithConfig project instance
                            {| AppProfile := appProfile |} [WithGRPCConn cc]
                     else NewClient project instance [WithGRPCConn cc]) r ]
    end.
Proof.
  unfold createDataClient, serviceConfigOf, dialOptions.
  rewrite serviceConfig_eq; intros H; run_inv H.
  destruct x as [cc [e |]]; exists cc.
  - exists (Some e); run_inv H; auto.
  - exists None.
    destruct (negb (String.eqb appProfile EmptyString)); run_inv H;
      reflexivity.
Qed.

(** The fixed fields of the template: the first verb is the value of the
    lookup service and the second that of the default target, each between
    double quotes; the timeout, the ages and the cache size stand between
    the two, in the text of the template itself. *)
Lemma serviceConfigTmpl_fields :
  countChar "%" serviceConfigTmpl = 2 /\
  hasSuffix (json "'lookupService': '") tmplHead = true /\
  String.prefix (json "',") tmplMiddle = true /\
  contains (json "'lookupServiceTimeout' : '10s',") tmplMiddle = true /\
  contains (json "'maxAge': '300s',") tmplMiddle = true /\
  contains (json "'staleAge' : '240s',") tmplMiddle = true /\
  contains (json "'cacheSizeBytes': 1000,") tmplMiddle = true /\
  hasSuffix (json "'defaultTarget': '") tmplMiddle = true /\
  String.prefix (json "'") tmplTail = true.
Proof. vm_compute; repeat split. Qed.

(** C3.  In every run of [createDataClient] the first call is the dial,
    and the document it carries is the template with its two verbs
    replaced: the first by the RLS endpoint, as the value of
    [lookupService], the second by the default target, as the value of
    [defaultTarget].  The template has no other verb, and the lookup
    timeout 10s, the max age 300s, the stale age 240s and the cache size
    1000 are text of the template between the two.  The harness does
    nothing else with the document: the run goes on as the dial answers,
    ending with its error or with the answer of the client constructor. *)
Theorem createDataClient_service_config
    (project instance endpoint appProfile : string) (enable : bool)
    (t : list entry) (r : option Client * option error) :
  runs (createDataClient project instance endpoint appProfile enable) t r ->
  exists (answer : option ClientConn * option error) (t' : list entry),
    t = Entry (Dial endpoint
                 [ WithDisableServiceConfig;
                   WithDefaultServiceConfig
                     (tmplHead ++ cbtRLSTestEndpoint ++ tmplMiddle
                      ++ (if enable then rlsDefaultTarget else EmptyString)
                      ++ tmplTail)%string;
                   WithCredentialsBundle NewDefaultCredentials;
                   WithDefaultCallOptions
                     [ MaxCallSendMsgSize (Z.shiftl 1 28);
                       MaxCallRecvMsgSize (Z.shiftl 1 28) ] ])
          answer :: t' /\
    serviceConfigTmpl
    = (tmplHead ++ "%s" ++ tmplMiddle ++ "%s" ++ tmplTail)%string /\
    countChar "%" serviceConfigTmpl = 2 /\
    hasSuffix (json "'lookupService': '") tmplHead = true /\
    contains (json "'lookupServiceTimeout' : '10s',") tmplMiddle = true /\
    contains (json "'maxAge': '300s',") tmplMiddle = true /\
    contains (json "'staleAge' : '240s',") tmplMiddle = true /\
    contains (json "'cacheSizeBytes': 1000,") tmplMiddle = true /\
    hasSuffix (json "'defaultTarget': '") tmplMiddle = true /\
    String.prefix (json "'") tmplTail = true /\
    match answer.2 with
    | Some e => t' = [] /\ r = (None, Some e)
    | None =>
        exists ev : event (option Client * option error), t' = [Entry ev r]
    end.
Proof.
  intros H; apply createDataClient_runs in H as (cc & derr & H).
  destruct serviceConfigTmpl_parts as (Hparts & _).
  destruct serviceConfigTmpl_fields
    as (Hn & Hls & _ & Hto & Hmax & Hstale & Hsize & Hdt & Hq).
  exists (cc, derr).
  destruct derr as [e |].
  - destruct H as [-> ->]; exists []; repeat split; assumption.
  - subst t; eexists; repeat split; try assumption.
    simpl; eexists; reflexivity.
Qed.

(** A run of [createDataClient] with the defaults of the flags, in which
    the dial and the constructor succeed. *)
Lemma createDataClient_service_config_witness :
  exists (answer : option ClientConn * option error) (t' : list entry),
    [ Entry (Dial cbtDataTestEndpoint (dialOptions (serviceConfigOf false)))
        (Some (ClientConnRef 0), None);
      Entry (NewClient "p" "i" [WithGRPCConn (Some (ClientConnRef 0))])
        (Some (ClientRef 0), None) ]
    = Entry (Dial cbtDataTestEndpoint
                 [ WithDisableServiceConfig;
                   WithDefaultServiceConfig
                     (tmplHead ++ cbtRLSTestEndpoint ++ tmplMiddle
                      ++ EmptyString ++ tmplTail)%string;
                   WithCredentialsBundle NewDefaultCredentials;
                   WithDefaultCallOptions
                     [ MaxCallSendMsgSize (Z.shiftl 1 28);
                       MaxCallRecvMsgSize (Z.shiftl 1 28) ] ])
          answer :: t' /\
    serviceConfigTmpl
    = (tmplHead ++ "%s" ++ tmplMiddle ++ "%s" ++ tmplTail)%string /\
    countChar "%" serviceConfigTmpl = 2 /\
    hasSuffix (json "'lookupService': '") tmplHead = true /\
    contains (json "'lookupServiceTimeout' : '10s',") tmplMiddle = true /\
    contains (json "'maxAge': '300s',") tmplMiddle = true /\
    contains (json "'staleAge' : '240s',") tmplMiddle = true /\
    contains (json "'cacheSizeBytes': 1000,") tmplMiddle = true /\
    hasSuffix (json "'defaultTarget': '") tmplMiddle = true /\
    String.prefix (json "'") tmplTail = true /\
    match answer.2 with
    | Some e => t' = [] /\ (Some (ClientRef 0), None) = (None, Some e)
    | None =>
        exists ev : event (option Client * option error),
          t' = [Entry ev (Some (ClientRef 0), None)]
    end.
Proof.
  apply (createDataClient_service_config "p" "i" cbtDataTestEndpoint
           EmptyString false).
  vm_compute.
  eexists _, _; split; [reflexivity |].
  eexists _, _; split; [reflexivity |]; split; reflexivity.
Defined.

(** C4.  The document that [createDataClient] hands to the dial has, as
    the value of [defaultTarget], the fixed default target when
    [enableDefaultTarget] is set and the empty text when it is not.  In
    both cases the dial is made, and the harness adds no error of its
    own: the run ends with the error that the dial answered, or with the
    answer of the client constructor as it is. *)
Theorem createDataClient_default_target
    (project instance endpoint appProfile : string) (enable : bool)
    (t : list entry) (r : option Client * option error) :
  runs (createDataClient project instance endpoint appProfile enable) t r ->
  exists (document : string) (answer : option ClientConn * option error)
         (t' : list entry),
    t = Entry (Dial endpoint (dialOptions document)) answer :: t' /\
    document
    = (tmplHead ++ cbtRLSTestEndpoint ++ tmplMiddle
       ++ (if enable then rlsDefaultTarget else EmptyString)
       ++ tmplTail)%string /\
    hasSuffix (json "'defaultTarget': '") tmplMiddle = true /\
    String.prefix (json "'") tmplTail = true /\
    (enable = true ->
       contains (json "'defaultTarget': '" ++ rlsDefaultTarget ++ json "'")
         document = true) /\
    (enable = false ->
       contains (json "'defaultTarget': ''") document = true) /\
    match answer.2 with
    | Some e => t' = [] /\ r = (None, Some e)
    | None =>
        exists ev : event (option Client * option error), t' = [Entry ev r]
    end.
Proof.
  intros H; apply createDataClient_runs in H as (cc & derr & H).
  destruct serviceConfigTmpl_fields as (_ & _ & _ & _ & _ & _ & _ & Hdt & Hq).
  exists (serviceConfigOf enable), (cc, derr).
  assert (Hon : enable = true ->
            contains (json "'defaultTarget': '" ++ rlsDefaultTarget
                      ++ json "'") (serviceConfigOf enable) = true)
    by (intros ->; vm_compute; reflexivity).
  assert (Hoff : enable = false ->
            contains (json "'defaultTarget': ''") (serviceConfigOf enable)
            = true)
    by (intros ->; vm_compute; reflexivity).
  destruct derr as [e |].
  - destruct H as [-> ->]; exists []; repeat split; assumption.
  - subst t; eexists; repeat split; try assumption.
    simpl; eexists; reflexivity.
Qed.

(** A run without default target: the dial is made with an empty value of
    [defaultTarget], and the client is returned. *)
Lemma createDataClient_default_target_witness :
  exists (document : string) (answer : option ClientConn * option error)
         (t' : list entry),
    [ Entry (Dial cbtDataTestEndpoint (dialOptions (serviceConfigOf false)))
        (Some (ClientConnRef 0), None);
      Entry (NewClient "p" "i" [WithGRPCConn (Some (ClientConnRef 0))])
        (Some (ClientRef 0), None) ]
    = Entry (Dial cbtDataTestEndpoint (dialOptions document)) answer :: t' /\
    document
    = (tmplHead ++ cbtRLSTestEndpoint ++ tmplMiddle ++ EmptyString
       ++ tmplTail)%string /\
    hasSuffix (json "'defaultTarget': '") tmplMiddle = true /\
    String.prefix (json "'") tmplTail = true /\
    (false = true ->
       contains (json "'defaultTarget': '" ++ rlsDefaultTarget ++ json "'")
         document = true) /\
    (false = false ->
       contains (json "'defaultTarget': ''") document = true) /\
    match answer.2 with
    | Some e => t' = [] /\ (Some (ClientRef 0), None) = (None, Some e)
    | None =>
        exists ev : event (option Client * option error),
          t' = [Entry ev (Some (ClientRef 0), None)]
    end.
Proof.
  apply (createDataClient_default_target "p" "i" cbtDataTestEndpoint
           EmptyString false).
  vm_compute.
  eexists _, _; split; [reflexivity |].
  eexists _, _; split; [reflexivity |]; split; reflexivity.
Defined.

(** C9.  After a successful dial, [createDataClient] constructs the client
    with [NewClient], that is without any client configuration, when the
    app profile is empty, and with [NewClientWithConfig] and a
    configuration holding the app profile as given when it is not; the
    answer of the constructor is the result.  Both use the dialled
    connection as their only option. *)
Theorem createDataClient_app_profile
    (project instance endpoint appProfile : string) (enable : bool)
    (t : list entry) (r : option Client * option error) :
  runs (createDataClient project instance endpoint appProfile enable) t r ->
  exists (dial : entry) (cc : option ClientConn) (derr : option error),
    dial = Entry (Dial endpoint (dialOptions (serviceConfigOf enable)))
             (cc, derr) /\
    (derr <> None -> t = [dial] /\ r.1 = None /\ r.2 = derr) /\
    (derr = None -> appProfile = EmptyString ->
       t = [dial; Entry (NewClient project instance [WithGRPCConn cc]) r]) /\
    (derr = None -> appProfile <> EmptyString ->
       t = [dial;
            Entry (NewClientWithConfig project instance
                     {| AppProfile := appProfile |} [WithGRPCConn cc]) r]).
Proof.
  intros H; apply createDataClient_runs in H as (cc & derr & H).
  eexists _, cc, derr; split; [reflexivity |].
  destruct derr as [e |].
  - destruct H as [-> ->]; repeat split; congruence.
  - subst t; split; [congruence |]; split; intros _ Hp.
    + subst appProfile; reflexivity.
    + destruct (String.eqb_spec appProfile EmptyString); [contradiction |].
      reflexivity.
Qed.

(** A run with the app profile [prof]: the client is constructed with a
    configuration that holds it. *)
Lemma createDataClient_app_profile_witness :
  exists (dial : entry) (cc : option ClientConn) (derr : option error),
    dial = Entry (Dial cbtDataTestEndpoint
                    (dialOptions (serviceConfigOf false))) (cc, derr) /\
    (derr <> None ->
       [ Entry (Dial cbtDataTestEndpoint
                  (dialOptions (serviceConfigOf false)))
           (Some (ClientConnRef 0), None);
         Entry (NewClientWithConfig "p" "i" {| AppProfile := "prof" |}
                  [WithGRPCConn (Some (ClientConnRef 0))])
           (Some (ClientRef 0), None) ] = [dial] /\
       Some (ClientRef 0) = None /\ None = derr) /\
    (derr = None -> "prof" = EmptyString ->
       [ Entry (Dial cbtDataTestEndpoint
                  (dialOptions (serviceConfigOf false)))
           (Some (ClientConnRef 0), None);
         Entry (NewClientWithConfig "p" "i" {| AppProfile := "prof" |}
                  [WithGRPCConn (Some (ClientConnRef 0))])
           (Some (ClientRef 0), None) ]
       = [dial; Entry (NewClient "p" "i" [WithGRPCConn cc])
                  (Some (ClientRef 0), None)]) /\
    (derr = None -> "prof" <> EmptyString ->
       [ Entry (Dial cbtDataTestEndpoint
                  (dialOptions (serviceConfigOf false)))
           (Some (ClientConnRef 0), None);
         Entry (NewClientWithConfig "p" "i" {| AppProfile := "prof" |}
                  [WithGRPCConn (Some (ClientConnRef 0))])
           (Some (ClientRef 0), None) ]
       = [dial;
          Entry (NewClientWithConfig "p" "i" {| AppProfile := "prof" |}
                   [WithGRPCConn cc]) (Some (ClientRef 0), None)]).
Proof.
  apply (createDataClient_app_profile "p" "i" cbtDataTestEndpoint "prof"
           false _ (Some (ClientRef 0), None)).
  vm_compute.
  eexists _, _; split; [reflexivity |].
  eexists _, _; split; [reflexivity |]; split; reflexivity.
Defined.

(** ** Writing *)

(** A run of the loop of [writeToTable] either passes through all the
    greetings, or passes through some of them and ends on the first
    mutation that the service refuses, with its error. *)
Lemma writeLoop_runs (table : option Table) (cf cq rowKeyPrefix : string)
    (todo : list string) (i : Z) (t : list entry) (r : option error) :
  runs (writeLoop table cf cq rowKeyPrefix todo i) t r ->
  (exists tss : list Timestamp,
     length tss = length todo /\
     t = written table cf cq rowKeyPrefix todo i tss /\
     r = None) \/
  (exists (done : list string) (greeting : string) (rest : list string)
          (tss : list Timestamp) (ts : Timestamp) (e : error),
     todo = done ++ greeting :: rest /\
     length tss = length done /\
     t = written table cf cq rowKeyPrefix done i tss
         ++ [ Entry Now ts;
              Entry (Apply table
                       (rowKeyPrefix ++ decimal (i + Z.of_nat (length done)))
                         %string
                       [SetCell cf cq ts greeting]) (Some e) ] /\
     r = Some e).
Proof.
  revert i t; induction todo as [| g todo IH]; intros i t H.
  - run_inv H; left; exists []; auto.
  - cbn [writeLoop] in H; rewrite rowKey_eq in H; run_inv H.
    change (Mutation_Set NewMutation cf cq x g)
      with [SetCell cf cq x g] in *.
    destruct x0 as [e |]; run_inv H.
    + right; exists [], g, todo, [], x, e; simpl.
      rewrite Z.add_0_r; auto.
    + destruct x0.
      apply IH in H as [(tss & Hlen & -> & ->) |
                        (done & g' & rest & tss & ts & e
                         & -> & Hlen & -> & ->)].
      * left; exists (x :: tss); simpl; auto.
      * right; exists (g :: done), g', rest, (x :: tss), ts, e.
        simpl length; rewrite Nat2Z.inj_succ, <- Z.add_1_l, Z.add_assoc.
        simpl; auto.
Qed.

Lemma writeToTable_runs (client : option Client)
    (tableID cf cq rowKeyPrefix : string) (t : list entry)
    (r : option error) :
  runs (writeToTable client tableID cf cq rowKeyPrefix) t r ->
  exists (table : option Table) (t' : list entry),
    t = Entry (Open client tableID) table :: t' /\
    match table with
    | None =>
        t' = [] /\
        r = Some (Errorf "failed to open table %q" [VString tableID])
    | Some _ => runs (writeLoop table cf cq rowKeyPrefix greetings 0) t' r
    end.
Proof.
  unfold writeToTable; intros H; run_inv H.
  eexists _, _; split; [reflexivity |].
  destruct x; [exact H | run_inv H; auto].
Qed.

Lemma written_not_failed (table : option Table)
    (cf cq rowKeyPrefix : string) (done : list string) (i : Z)
    (tss : list Timestamp) :
  Forall (fun en => failedApply en = false)
    (written table cf cq rowKeyPrefix done i tss).
Proof.
  revert i tss; induction done as [| g done IH]; intros i [| ts tss];
    simpl; repeat (constructor; [reflexivity |]); auto.
Qed.

(** A list is cut in one way only at the first element that satisfies a
    test. *)
Lemma first_cut_unique {A : Type} (P : A -> bool)
    (l1 l1' l2 l2' : list A) (x x' : A) :
  l1 ++ x :: l2 = l1' ++ x' :: l2' ->
  Forall (fun y => P y = false) l1' ->
  P x = true -> P x' = true ->
  (Forall (fun y => P y = false) l2' -> l1 = l1' /\ x = x' /\ l2 = l2').
Proof.
  revert l1'; induction l1 as [| a l1 IH]; intros [| a' l1'] Heq Hl1' Hx Hx'
    Hl2'; simpl in Heq.
  - injection Heq as -> ->; auto.
  - injection Heq as <- Heq.
    apply Forall_inv in Hl1'; congruence.
  - injection Heq as -> Heq.
    assert (Hin : In x l2') by (rewrite <- Heq; apply in_elt).
    rewrite Forall_forall in Hl2'.
    apply list_elem_of_In, Hl2' in Hin; congruence.
  - injection Heq as -> Heq.
    destruct (IH l1' Heq) as (-> & -> & ->); auto.
    eapply Forall_inv_tail; eassumption.
Qed.

(** C5.  A run of [writeToTable] that returns nil opens the table and
    then passes three times through the loop: each pass reads the clock
    and applies, to the row key made of the prefix and the decimal index
    0, 1 or 2, a mutation that sets one cell, in the given column family
    and qualifier, at the time just read.  These three are all the
    mutations of the run, in this order. *)
Theorem writeToTable_success (client : option Client)
    (tableID cf cq rowKeyPrefix : string) (t : list entry) :
  runs (writeToTable client tableID cf cq rowKeyPrefix) t None ->
  exists (table : option Table) (ts0 ts1 ts2 : Timestamp),
    t = [ Entry (Open client tableID) table;
          Entry Now ts0;
          Entry (Apply table (rowKeyPrefix ++ "0")%string
                   [SetCell cf cq ts0 "Hello World!"]) None;
          Entry (LogPrintf ("Wrote greeting %q to table" ++ LF)%string
                   [VString "Hello World!"]) tt;
          Entry Now ts1;
          Entry (Apply table (rowKeyPrefix ++ "1")%string
                   [SetCell cf cq ts1 "Hello Bigtable!"]) None;
          Entry (LogPrintf ("Wrote greeting %q to table" ++ LF)%string
                   [VString "Hello Bigtable!"]) tt;
          Entry Now ts2;
          Entry (Apply table (rowKeyPrefix ++ "2")%string
                   [SetCell cf cq ts2 "Hello Golang!"]) None;
          Entry (LogPrintf ("Wrote greeting %q to table" ++ LF)%string
                   [VString "Hello Golang!"]) tt ] /\
    omap applyOf t
    = [ (table, (rowKeyPrefix ++ "0")%string,
         [SetCell cf cq ts0 "Hello World!"], None);
        (table, (rowKeyPrefix ++ "1")%string,
         [SetCell cf cq ts1 "Hello Bigtable!"], None);
        (table, (rowKeyPrefix ++ "2")%string,
         [SetCell cf cq ts2 "Hello Golang!"], None) ].
Proof.
  intros H; apply writeToTable_runs in H as (table & t' & -> & H).
  destruct table as [tbl |]; [| destruct H; discriminate].
  apply writeLoop_runs in H
    as [(tss & Hlen & -> & _) | (? & ? & ? & ? & ? & ? & _ & _ & _ & ?)];
    [| discriminate].
  destruct tss as [| ts0 [| ts1 [| ts2 [| ? ?]]]]; try discriminate Hlen.
  exists (Some tbl), ts0, ts1, ts2; split; reflexivity.
Qed.

(** A run in which the three mutations are accepted, at the times 10, 20
    and 30. *)
Lemma writeToTable_success_witness :
  exists (table : option Table) (ts0 ts1 ts2 : Timestamp),
    Entry (Open None "t") (Some (TableRef 0))
    :: written (Some (TableRef 0)) "cf1" "greeting" "row_key_" greetings 0
         [10; 20; 30]%Z
    = [ Entry (Open None "t") table;
        Entry Now ts0;
        Entry (Apply table ("row_key_" ++ "0")%string
                 [SetCell "cf1" "greeting" ts0 "Hello World!"]) None;
        Entry (LogPrintf ("Wrote greeting %q to table" ++ LF)%string
                 [VString "Hello World!"]) tt;
        Entry Now ts1;
        Entry (Apply table ("row_key_" ++ "1")%string
                 [SetCell "cf1" "greeting" ts1 "Hello Bigtable!"]) None;
        Entry (LogPrintf ("Wrote greeting %q to table" ++ LF)%string
                 [VString "Hello Bigtable!"]) tt;
        Entry Now ts2;
        Entry (Apply table ("row_key_" ++ "2")%string
                 [SetCell "cf1" "greeting" ts2 "Hello Golang!"]) None;
        Entry (LogPrintf ("Wrote greeting %q to table" ++ LF)%string
                 [VString "Hello Golang!"]) tt ] /\
    omap applyOf
      (Entry (Open None "t") (Some (TableRef 0))
       :: written (Some (TableRef 0)) "cf1" "greeting" "row_key_" greetings
            0 [10; 20; 30]%Z)
    = [ (table, ("row_key_" ++ "0")%string,
         [SetCell "cf1" "greeting" ts0 "Hello World!"], None);
        (table, ("row_key_" ++ "1")%string,
         [SetCell "cf1" "greeting" ts1 "Hello Bigtable!"], None);
        (table, ("row_key_" ++ "2")%string,
         [SetCell "cf1" "greeting" ts2 "Hello Golang!"], None) ].
Proof.
  apply (writeToTable_success None "t" "cf1" "greeting" "row_key_").
  vm_compute.
  repeat (eexists _, _; split; [reflexivity |]); split; reflexivity.
Defined.

(** C10.  When, in a run of [writeToTable], the service refuses a
    mutation, that call is the last of the run and its error is returned
    as it is.  The refused mutation is the one of some index [i]; before
    it the run opened the table and passed through the loop for the
    indices below [i], whose mutations were all accepted.  No mutation of
    a greater index is attempted and nothing is issued to undo the
    accepted ones. *)
Theorem writeToTable_stops_at_first_failure (client : option Client)
    (tableID cf cq rowKeyPrefix : string) (t : list entry)
    (r : option error)
    (t1 t2 : list entry) (table : option Table) (row : string)
    (m : Mutation) (e : error) :
  runs (writeToTable client tableID cf cq rowKeyPrefix) t r ->
  t = t1 ++ Entry (Apply table row m) (Some e) :: t2 ->
  t2 = [] /\
  r = Some e /\
  exists (i : nat) (greeting : string) (tss : list Timestamp)
         (ts : Timestamp),
    greetings !! i = Some greeting /\
    length tss = i /\
    row = (rowKeyPrefix ++ decimal (Z.of_nat i))%string /\
    m = [SetCell cf cq ts greeting] /\
    t1 = Entry (Open client tableID) table
         :: written table cf cq rowKeyPrefix (take i greetings) 0 tss
         ++ [Entry Now ts].
Proof.
  intros H Ht; apply writeToTable_runs in H as (tbl & t' & -> & H).
  assert (Hfail : forall l : list entry,
            Forall (fun en => failedApply en = false) l ->
            l <> t1 ++ Entry (Apply table row m) (Some e) :: t2).
  { intros l Hl ->; apply Forall_app in Hl as [_ Hl].
    apply Forall_inv in Hl; discriminate Hl. }
  destruct tbl as [tb |].
  2: { destruct H as [-> ->]; exfalso; eapply Hfail; [| exact Ht].
       repeat constructor. }
  apply writeLoop_runs in H
    as [(tss & Hlen & -> & ->) |
        (done & g & rest & tss & ts & e' & Hg & Hlen & -> & ->)].
  { exfalso; eapply Hfail; [| exact Ht].
    constructor; [reflexivity | apply written_not_failed]. }
  change (Entry (Open client tableID) (Some tb)
          :: written (Some tb) cf cq rowKeyPrefix done 0 tss
          ++ [ Entry Now ts;
               Entry (Apply (Some tb)
                        (rowKeyPrefix ++ decimal (0 + Z.of_nat (length done)))
                          %string [SetCell cf cq ts g]) (Some e') ])
    with ((Entry (Open client tableID) (Some tb)
           :: written (Some tb) cf cq rowKeyPrefix done 0 tss)
          ++ [Entry Now ts]
          ++ Entry (Apply (Some tb)
                      (rowKeyPrefix ++ decimal (0 + Z.of_nat (length done)))
                        %string [SetCell cf cq ts g]) (Some e') :: [])
    in Ht.
  rewrite app_assoc in Ht.
  destruct (first_cut_unique failedApply _ _ _ _ _ _ (eq_sym Ht))
    as (-> & Hen & ->); [| reflexivity | reflexivity | constructor |].
  { apply Forall_app; split; [| repeat constructor].
    constructor; [reflexivity | apply written_not_failed]. }
  apply (f_equal applyOf) in Hen; simpl in Hen.
  injection Hen as -> -> -> ->.
  split; [reflexivity |]; split; [reflexivity |].
  exists (length done), g, tss, ts.
  rewrite Hg, list_lookup_middle, take_app_length by reflexivity.
  auto 10.
Qed.

(** A run in which the first mutation is accepted and the second one is
    refused. *)
Lemma writeToTable_stops_at_first_failure_witness :
  @nil entry = [] /\
  Some (OtherError "unavailable") = Some (OtherError "unavailable") /\
  exists (i : nat) (greeting : string) (tss : list Timestamp)
         (ts : Timestamp),
    greetings !! i = Some greeting /\
    length tss = i /\
    "row_key_1" = ("row_key_" ++ decimal (Z.of_nat i))%string /\
    [SetCell "cf1" "greeting" 20%Z "Hello Bigtable!"]
    = [SetCell "cf1" "greeting" ts greeting] /\
    Entry (Open None "t") (Some (TableRef 0))
    :: writeEntries (Some (TableRef 0)) "cf1" "greeting" "row_key_"
         "Hello World!" 0 10%Z
    ++ [Entry Now 20%Z]
    = Entry (Open None "t") (Some (TableRef 0))
      :: written (Some (TableRef 0)) "cf1" "greeting" "row_key_"
           (take i greetings) 0 tss
      ++ [Entry Now ts].
Proof.
  apply (writeToTable_stops_at_first_failure None "t" "cf1" "greeting"
           "row_key_"
           ((Entry (Open None "t") (Some (TableRef 0))
             :: writeEntries (Some (TableRef 0)) "cf1" "greeting" "row_key_"
                  "Hello World!" 0 10%Z
             ++ [Entry Now 20%Z])
            ++ Entry (Apply (Some (TableRef 0)) "row_key_1"
                        [SetCell "cf1" "greeting" 20%Z "Hello Bigtable!"])
                 (Some (OtherError "unavailable")) :: [])).
  - vm_compute.
    repeat (eexists _, _; split; [reflexivity |]); split; reflexivity.
  - reflexivity.
Defined.

(** ** Reading *)

Lemma forRange_runs {A : Type} (body : A -> prog unit)
    (entries : A -> list entry) (l : list A) (t : list entry) (r : unit) :
  (forall a t' r', runs (body a) t' r' -> t' = entries a) ->
  runs (forRange l body) t r -> t = flat_map entries l.
Proof.
  intros Hbody; revert t; induction l as [| a l IH]; intros t H.
  - run_inv H; reflexivity.
  - cbn [forRange mbind prog_bind] in H.
    apply runs_bind in H as (t1 & [] & t2 & H1 & H2 & ->).
    apply Hbody in H1 as ->; apply IH in H2 as ->; reflexivity.
Qed.

Lemma logRow_runs (row : Row) (t : list entry) (r : unit) :
  runs (logRow row) t r -> t = rowEntries row.
Proof.
  apply forRange_runs; intros [cf ris] t' r'.
  intros H.
  apply (forRange_runs _ (fun ri => [itemEntry cf ri])) in H.
  - rewrite H; clear H; induction ris as [| ri ris IH]; simpl; congruence.
  - intros ri t'' [] H'; apply runs_call in H'; exact H'.
Qed.

Lemma readSingleRowFromTable_runs (client : option Client)
    (tableID rowKeyPrefix : string) (t : list entry) (r : option error) :
  runs (readSingleRowFromTable client tableID rowKeyPrefix) t r ->
  exists (table : option Table) (t' : list entry),
    t = Entry (Open client tableID) table :: t' /\
    match table with
    | None =>
        t' = [] /\
        r = Some (Errorf "failed to open table %q" [VString tableID])
    | Some _ =>
        exists (row : Row) (err : option error),
          match err with
          | Some _ =>
              t' = [Entry (ReadRow table (rowKeyPrefix ++ "0")%string)
                      (row, err)] /\
              r = Some (Errorf "failed to read row %q"
                          [VString (rowKeyPrefix ++ "0")%string])
          | None =>
              t' = Entry (ReadRow table (rowKeyPrefix ++ "0")%string)
                     (row, None) :: rowEntries row /\
              r = None
          end
    end.
Proof.
  unfold readSingleRowFromTable; rewrite rowKey_eq; intros H; run_inv H.
  eexists _, _; split; [reflexivity |].
  destruct x as [tb |]; run_inv H; auto.
  destruct x as [row [e |]]; run_inv H; exists row.
  - exists (Some e); auto.
  - exists None.
    apply runs_bind in H as (t1 & [] & t2 & H1 & H2 & ->).
    apply logRow_runs in H1 as ->; run_inv H2.
    rewrite app_nil_r; auto.
Qed.

(** The callback of [readEntireTable] accepts every row, so that all the
    rows of the stream are printed. *)
Lemma feedRows_printRow_runs (rows : list Row) (t : list entry) (all : bool) :
  runs (feedRows (fun row => logRow row;; Ret true) rows) t all ->
  t = flat_map rowEntries rows /\ all = true.
Proof.
  revert t; induction rows as [| row rows IH]; intros t H.
  - run_inv H; auto.
  - cbn [feedRows mbind prog_bind] in H.
    apply runs_bind in H as (t1 & more & t2 & H1 & H2 & ->).
    apply runs_bind in H1 as (t3 & [] & t4 & H3 & H4 & ->).
    apply logRow_runs in H3 as ->; run_inv H4.
    apply IH in H2 as [-> ->]; rewrite app_nil_r; auto.
Qed.

Lemma readEntireTable_runs (client : option Client)
    (tableID rowKeyPrefix : string) (t : list entry) (r : option error) :
  runs (readEntireTable client tableID rowKeyPrefix) t r ->
  exists (table : option Table) (t' : list entry),
    t = Entry (Open client tableID) table :: t' /\
    match table with
    | None =>
        t' = [] /\
        r = Some (Errorf "failed to open table %q" [VString tableID])
    | Some _ =>
        exists (rows : list Row) (err : option error),
          t' = Entry (ReadRows table (PrefixRange rowKeyPrefix)) (rows, err)
               :: flat_map rowEntries rows /\
          r = match err with
              | Some e =>
                  Some (Errorf "failed to read rows from table %q: %v"
                          [VString tableID; VError e])
              | None => None
              end
    end.
Proof.
  unfold readEntireTable; intros H; run_inv H.
  eexists _, _; split; [reflexivity |].
  destruct x as [tb |]; run_inv H; auto.
  cbn zeta in H; apply runs_bind in H as (t1 & err & t2 & H1 & H2 & ->).
  unfold Table_ReadRows in H1; run_inv H1.
  destruct x as [rows e]; cbn [mbind prog_bind] in H1.
  apply runs_bind in H1 as (t3 & all & t4 & H3 & H4 & ->).
  apply feedRows_printRow_runs in H3 as [-> ->]; run_inv H4.
  exists rows, e; destruct e; run_inv H2; rewrite !app_nil_r; auto.
Qed.

(** ** Calls that a function never makes *)

Create HintDb avoids.

Ltac avoids_tac :=
  repeat first
    [ solve [auto with avoids]
    | progress cbn [avoids bind mbind prog_bind call mret prog_ret]
    | exact I
    | match goal with
      | |- forall _, _ => intros ?
      | |- _ /\ _ => split; [reflexivity |]
      | |- avoids _ (bind _ _) => apply avoids_bind
      | |- avoids _ (mbind _ _) => apply avoids_bind
      | |- context [match ?x with _ => _ end] => destruct x
      | |- context [if ?b then _ else _] => destruct b
      end ].

Lemma avoids_forRange {A : Type} (P : selector) (body : A -> prog unit)
    (l : list A) :
  (forall a, avoids P (body a)) -> avoids P (forRange l body).
Proof.
  intros Hbody; induction l as [| a l IH]; cbn [forRange]; avoids_tac; auto.
Qed.

Lemma avoids_logRow (P : selector) (row : Row) :
  (forall f args, P _ (LogPrintf f args) = false) -> avoids P (logRow row).
Proof.
  intros HP; apply avoids_forRange; intros [cf ris].
  apply avoids_forRange; intros ri; simpl; auto.
Qed.

Section Avoids.
Variable P : selector.
Hypothesis P_LogPrintf : forall f args, P _ (LogPrintf f args) = false.
Hypothesis P_Now : P _ Now = false.
Hypothesis P_Open : forall c table, P _ (Open c table) = false.
Hypothesis P_Apply : forall t row m, P _ (Apply t row m) = false.

Lemma avoids_writeToTable (client : option Client)
    (tableID cf cq rowKeyPrefix : string) :
  avoids P (writeToTable client tableID cf cq rowKeyPrefix).
Proof.
  unfold writeToTable; cbn [avoids bind mbind prog_bind call].
  split; [apply P_Open |]; intros [tb |]; [| exact I].
  generalize 0%Z; induction greetings as [| g todo IH]; intros i;
    cbn [writeLoop avoids bind mbind prog_bind call]; [exact I |].
  split; [apply P_Now |]; intros ts.
  split; [apply P_Apply |]; intros [e |]; [exact I |].
  cbn [avoids bind]; split; [apply P_LogPrintf |]; intros _; apply IH.
Qed.
End Avoids.

Lemma createDataClient_no_delete
    (project instance endpoint appProfile : string) (enable : bool) :
  avoids isDeleteTable
    (createDataClient project instance endpoint appProfile enable).
Proof. unfold createDataClient; avoids_tac. Qed.

Lemma createTable_no_delete (ac : option AdminClient)
    (tableID cf : string) :
  avoids isDeleteTable (createTable ac tableID cf).
Proof. unfold createTable; avoids_tac. Qed.

Lemma readSingleRowFromTable_no_delete (client : option Client)
    (tableID rowKeyPrefix : string) :
  avoids isDeleteTable (readSingleRowFromTable client tableID rowKeyPrefix).
Proof.
  unfold readSingleRowFromTable; avoids_tac.
  apply avoids_logRow; reflexivity.
Qed.

Lemma readEntireTable_no_delete (client : option Client)
    (tableID rowKeyPrefix : string) :
  avoids isDeleteTable (readEntireTable client tableID rowKeyPrefix).
Proof.
  unfold readEntireTable, Table_ReadRows; avoids_tac.
  induction l as [| row rows IH]; cbn [feedRows]; avoids_tac; auto.
  apply avoids_logRow; reflexivity.
Qed.

Lemma createDataClient_no_read
    (project instance endpoint appProfile : string) (enable : bool) :
  avoids isRead (createDataClient project instance endpoint appProfile enable).
Proof. unfold createDataClient; avoids_tac. Qed.

Lemma createTable_no_read (ac : option AdminClient) (tableID cf : string) :
  avoids isRead (createTable ac tableID cf).
Proof. unfold createTable; avoids_tac. Qed.

(** ** The whole run *)

Ltac run_bind H t1 a H1 :=
  let t2 := fresh "t" in
  apply runs_bind in H as (t1 & a & t2 & H1 & H & ->).

Ltac units := repeat match goal with u : unit |- _ => destruct u end.

(** A run of [main] that returns went through every stage with success:
    its trace is made of the runs of the five functions, in order, between
    the lines that [main] logs, and ends with the teardown, if not skipped,
    and the deferred calls. *)
Lemma main_returned (f : flag.t) (t : list entry) (r : exit) :
  runs (main f) t r -> r = Returned ->
  exists (ac : option AdminClient) (dc : option Client)
         (tDC tCT tW tR1 tR2 : list entry) (x y : option error),
    runs (createDataClient (flag.projectID f) (flag.instanceID f)
            cbtDataTestEndpoint (flag.appProfile f)
            (flag.enableDefaultTarget f)) tDC (dc, None) /\
    runs (createTable ac (flag.tableID f) (flag.columnFamily f)) tCT None /\
    runs (writeToTable dc (flag.tableID f) (flag.columnFamily f)
            (flag.columnQualifier f) (flag.rowKeyPrefix f)) tW None /\
    runs (readSingleRowFromTable dc (flag.tableID f) (flag.rowKeyPrefix f))
      tR1 None /\
    runs (readEntireTable dc (flag.tableID f) (flag.rowKeyPrefix f))
      tR2 None /\
    t = [ Entry (LogPrintf
                   "Running CBT RLS Test on project %q and instance %q..."
                   [VString (flag.projectID f); VString (flag.instanceID f)])
            tt;
          Entry (NewAdminClient (flag.projectID f) (flag.instanceID f)
                   [WithEndpoint cbtAdminTestEndpoint]) (ac, None) ]
        ++ tDC
        ++ [ Entry (LogPrintf
                 ("Attempting to create table %q with columnFamily %q..."
                  ++ LF)%string
                 [VString (flag.tableID f); VString (flag.columnFamily f)])
               tt ]
        ++ tCT
        ++ [ Entry (LogPrintf
                 ("Table %q with columnFamily %q created" ++ LF)%string
                 [VString (flag.tableID f); VString (flag.columnFamily f)])
               tt;
             Entry (LogPrintf
                 "Waiting %v for table creation to take effect..."
                 [VDuration (15 * Second)]) tt;
             Entry (Sleep (15 * Second)) tt;
             Entry (LogPrintf
                 ("Attempting to write some greetings to table %q..." ++ LF)
                   %string
                 [VString (flag.tableID f)]) tt ]
        ++ tW
        ++ [ Entry (LogPrintf
                 ("Attempting to read a single row from table %q..." ++ LF)
                   %string
                 [VString (flag.tableID f)]) tt ]
        ++ tR1
        ++ [ Entry (LogPrintf
                 ("Attempting to read the entire table %q..." ++ LF)%string
                 [VString (flag.tableID f)]) tt ]
        ++ tR2
        ++ (if flag.skipTableDeletion f then []
            else [ Entry (LogPrintf
                            ("Attempting to delete table %q..." ++ LF)%string
                            [VString (flag.tableID f)]) tt;
                   Entry (DeleteTable ac (flag.tableID f)) None;
                   Entry (LogPrintf ("Table %q deleted" ++ LF)%string
                            [VString (flag.tableID f)]) tt ])
        ++ [Entry (ClientClose dc) x; Entry (AdminClose ac) y].
Proof.
  unfold main, Fatalf; intros H Hr; run_inv H.
  destruct x0 as [ac [e |]]; run_inv H; [discriminate Hr |].
  run_bind H tDC a HDC.
  destruct a as [dc [e |]]; run_inv H; [discriminate Hr |].
  cbn zeta in H; run_inv H.
  run_bind H tCT a HCT; destruct a as [e |]; run_inv H; [discriminate Hr |].
  run_bind H tW a HW; destruct a as [e |]; run_inv H; [discriminate Hr |].
  run_bind H tR1 a HR1; destruct a as [e |]; run_inv H; [discriminate Hr |].
  run_bind H tR2 a HR2; destruct a as [e |]; run_inv H; [discriminate Hr |].
  exists ac, dc, tDC, tCT, tW, tR1, tR2.
  destruct (flag.skipTableDeletion f).
  - run_inv H; units.
    eexists _, _; repeat (split; [eassumption |]); reflexivity.
  - cbn [runs bind mbind prog_bind call] in H.
    destruct H as (u & t' & -> & derr & t'' & -> & H).
    destruct derr as [e |]; run_inv H; [discriminate Hr |]; units.
    eexists _, _; repeat (split; [eassumption |]); reflexivity.
Qed.

Lemma writeToTable_no_delete (client : option Client)
    (tableID cf cq rowKeyPrefix : string) :
  avoids isDeleteTable (writeToTable client tableID cf cq rowKeyPrefix).
Proof. apply avoids_writeToTable; reflexivity. Qed.

Lemma writeToTable_no_read (client : option Client)
    (tableID cf cq rowKeyPrefix : string) :
  avoids isRead (writeToTable client tableID cf cq rowKeyPrefix).
Proof. apply avoids_writeToTable; reflexivity. Qed.

#[local] Hint Resolve createDataClient_no_delete createTable_no_delete
  writeToTable_no_delete readSingleRowFromTable_no_delete
  readEntireTable_no_delete createDataClient_no_read createTable_no_read
  writeToTable_no_read : avoids.

(** With the teardown skipped, [main] has no call that deletes a table,
    in any of its branches. *)
Lemma main_no_delete (f : flag.t) :
  flag.skipTableDeletion f = true -> avoids isDeleteTable (main f).
Proof.
  intros Hskip; unfold main, Fatalf; rewrite Hskip; avoids_tac.
Qed.

(** ** The route resolver *)

Lemma insertRules_rules (inserted : list Router.Rule)
    (tbl : Router.RoutingTable) :
  Router.rules (fold_left (fun tbl r => Router.insertRule r tbl) inserted tbl)
  = Router.rules tbl ++ inserted /\
  Router.defaultTarget
    (fold_left (fun tbl r => Router.insertRule r tbl) inserted tbl)
  = Router.defaultTarget tbl.
Proof.
  revert tbl; induction inserted as [| r rs IH]; intros tbl; simpl.
  - rewrite app_nil_r; auto.
  - destruct (IH (Router.insertRule r tbl)) as [-> ->]; simpl.
    rewrite <- app_assoc; auto.
Qed.

(** The rules of a table are the inserted rules, in insertion order. *)
Lemma build_rules (default : string) (inserted : list Router.Rule) :
  Router.rules (Router.build default inserted) = inserted.
Proof. apply (insertRules_rules inserted). Qed.

Lemma firstMatch_first (rs : list Router.Rule) (key : Router.RouteKey)
    (i : nat) (r : Router.Rule) :
  rs !! i = Some r ->
  Router.matches (Router.pattern r) key = true ->
  (forall (j : nat) (r' : Router.Rule),
     j < i -> rs !! j = Some r' ->
     Router.matches (Router.pattern r') key = false) ->
  Router.firstMatch rs key = Some r.
Proof.
  revert i; induction rs as [| r0 rs IH]; intros [| i] Hi Hm Hbefore;
    try discriminate Hi; simpl in *.
  - injection Hi as ->; rewrite Hm; reflexivity.
  - rewrite (Hbefore 0 r0) by (lia || reflexivity).
    apply (IH i); auto.
    intros j r' Hj Hr'; apply (Hbefore (S j)); [lia | exact Hr'].
Qed.

(** C8.  In the resolver that the specification describes, when the rule
    inserted at position [i] matches the route key and no rule inserted
    before it does, the resolver returns the target of that rule, whatever
    rules inserted after it match the key as well. *)
Theorem resolve_first_match (default : string)
    (inserted : list Router.Rule) (key : Router.RouteKey) (i : nat)
    (r : Router.Rule) :
  inserted !! i = Some r ->
  Router.matches (Router.pattern r) key = true ->
  (forall (j : nat) (r' : Router.Rule),
     j < i -> inserted !! j = Some r' ->
     Router.matches (Router.pattern r') key = false) ->
  Router.resolve (Router.build default inserted) key
  = inl (Router.target r).
Proof.
  intros Hi Hm Hbefore; unfold Router.resolve.
  rewrite build_rules, (firstMatch_first inserted key i r); auto.
Qed.

(** The table of scenario 5 with a rule in front that does not match: the
    key of service A matches both the exact rule and the wildcard, and is
    sent to the target of the exact rule, inserted first of the two. *)
Lemma resolve_first_match_witness :
  Router.resolve
    (Router.build EmptyString
       [ {| Router.pattern := Router.Exact ["B"]; Router.target := "T0" |};
         {| Router.pattern := Router.Exact ["A"]; Router.target := "T1" |};
         {| Router.pattern := Router.Wildcard; Router.target := "T2" |} ])
    ["A"]
  = inl "T1".
Proof.
  apply (resolve_first_match EmptyString _ ["A"] 1
           {| Router.pattern := Router.Exact ["A"];
              Router.target := "T1" |}).
  - reflexivity.
  - vm_compute; reflexivity.
  - intros [| j] r' Hj Hr'; [| lia].
    injection Hr' as <-; vm_compute; reflexivity.
Defined.

(** ** The harness against the reference service *)

Lemma exec_bind {A B St : Type} (h : handler St) (p : prog A)
    (f : A -> prog B) (s : St) :
  exec h (bind p f) s =
  let '(t1, a, s1) := exec h p s in
  let '(t2, b, s2) := exec h (f a) s1 in
  (t1 ++ t2, b, s2).
Proof.
  revert s; induction p as [a | X e k IH]; intros s; simpl.
  - destruct (exec h (f a) s) as [[t2 b] s2]; reflexivity.
  - destruct (h X e s) as [x s1]; rewrite IH.
    destruct (exec h (k x) s1) as [[t1 a] s1'].
    destruct (exec h (f a) s1') as [[t2 b] s2]; reflexivity.
Qed.

Lemma outcome_bind {A B St : Type} (h : handler St) (p : prog A)
    (f : A -> prog B) (s : St) :
  outcome h (p ≫= f) s =
  let '(a, s1) := outcome h p s in outcome h (f a) s1.
Proof.
  unfold outcome, mbind, prog_bind; rewrite exec_bind.
  destruct (exec h p s) as [[t1 a] s1]; simpl.
  destruct (exec h (f a) s1) as [[t2 b] s2]; reflexivity.
Qed.

Lemma outcome_Vis {R X St : Type} (h : handler St) (e : event X)
    (k : X -> prog R) (s : St) :
  outcome h (Vis e k) s = let '(x, s1) := h _ e s in outcome h (k x) s1.
Proof.
  unfold outcome; simpl; destruct (h X e s) as [x s1].
  destruct (exec h (k x) s1) as [[t r] s2]; reflexivity.
Qed.

Lemma outcome_Ret {R St : Type} (h : handler St) (r : R) (s : St) :
  outcome h (Ret r) s = (r, s).
Proof. reflexivity. Qed.

Ltac outcome_tac :=
  repeat first
    [ rewrite outcome_Ret
    | rewrite outcome_Vis; cbn [Ref.answer]
    | progress cbn [mbind prog_bind call bind mret prog_ret] ].

Lemma createDataClient_ref
    (project instance endpoint appProfile : string) (enable : bool)
    (s : Ref.store) :
  outcome Ref.answer
    (createDataClient project instance endpoint appProfile enable) s
  = ((Some (ClientRef 0), None), s).
Proof.
  unfold createDataClient; outcome_tac.
  destruct (negb (String.eqb appProfile EmptyString)); outcome_tac;
    reflexivity.
Qed.

Lemma createTable_ref_outcome (ac : option AdminClient)
    (tableID cf : string) (s : Ref.store) :
  outcome Ref.answer (createTable ac tableID cf) s
  = (None,
     match s !! tableID with
     | Some _ => s
     | None => <[tableID := [cf]]> s
     end).
Proof.
  unfold outcome; rewrite createTable_ref.
  destruct (s !! tableID); reflexivity.
Qed.

Lemma writeToTable_ref (client : option Client)
    (tableID cf cq rowKeyPrefix : string) (s : Ref.store) :
  outcome Ref.answer (writeToTable client tableID cf cq rowKeyPrefix) s
  = (None, s).
Proof.
  unfold writeToTable, greetings; outcome_tac.
  cbn [writeLoop]; outcome_tac; reflexivity.
Qed.

Lemma readSingleRowFromTable_ref (client : option Client)
    (tableID rowKeyPrefix : string) (s : Ref.store) :
  outcome Ref.answer (readSingleRowFromTable client tableID rowKeyPrefix) s
  = (None, s).
Proof. unfold readSingleRowFromTable; outcome_tac; reflexivity. Qed.

Lemma readEntireTable_ref (client : option Client)
    (tableID rowKeyPrefix : string) (s : Ref.store) :
  outcome Ref.answer (readEntireTable client tableID rowKeyPrefix) s
  = (None, s).
Proof.
  unfold readEntireTable, Table_ReadRows; outcome_tac; reflexivity.
Qed.

(** On the reference service every stage of [main] succeeds; the table is
    there at the end when the teardown is skipped, and gone otherwise. *)
Lemma main_ref (f : flag.t) (s : Ref.store) :
  outcome Ref.answer (main f) s
  = (Returned,
     let s1 := match s !! flag.tableID f with
               | Some _ => s
               | None => <[flag.tableID f := [flag.columnFamily f]]> s
               end in
     if flag.skipTableDeletion f then s1 else delete (flag.tableID f) s1).
Proof.
  unfold main, Fatalf; outcome_tac.
  rewrite outcome_bind, createDataClient_ref; outcome_tac.
  rewrite outcome_bind, createTable_ref_outcome; outcome_tac.
  rewrite outcome_bind, writeToTable_ref; outcome_tac.
  rewrite outcome_bind, readSingleRowFromTable_ref; outcome_tac.
  rewrite outcome_bind, readEntireTable_ref; outcome_tac.
  cbn zeta.
  assert (Hsome : is_Some
            (match s !! flag.tableID f with
             | Some _ => s
             | None => <[flag.tableID f := [flag.columnFamily f]]> s
             end !! flag.tableID f)).
  { destruct (s !! flag.tableID f) eqn:E; [rewrite E; eauto |].
    rewrite lookup_insert_eq; eauto. }
  destruct (flag.skipTableDeletion f); outcome_tac; [reflexivity |].
  unfold Ref.deleteTable; destruct Hsome as [fams ->]; outcome_tac.
  reflexivity.
Qed.

(** ** The read stage and the teardown *)

Lemma prefix_iff (p key : string) :
  String.prefix p key = true <-> exists rest, key = (p ++ rest)%string.
Proof.
  revert key; induction p as [| c p IH]; intros key.
  - split; [exists key; reflexivity | destruct key; reflexivity].
  - destruct key as [| c' key].
    + split; [discriminate | intros (rest & H); discriminate H].
    + cbn [String.prefix].
      change (String c p ++ ?rest)%string with (String c (p ++ rest)).
      destruct (ascii_dec c c') as [-> | Hc].
      * rewrite IH; split; intros (rest & H); exists rest; congruence.
      * split; [discriminate | intros (rest & H); congruence].
Qed.

Ltac no_call :=
  repeat first
    [ apply Forall_app; split
    | match goal with |- Forall _ [] => constructor end
    | match goal with
      | |- Forall _ (_ :: _) => constructor; [reflexivity |]
      end
    | solve [eapply avoids_runs; [| eassumption]; auto with avoids] ].

(** C6.  In a run of [main] that returns, the read stage is the
    following: the table is opened and one row is read, whose key is the
    row key prefix followed by 0, the key of the first row written; every
    item of that row is printed; then the table is opened again and
    scanned over the prefix range of the row key prefix, which holds
    exactly the keys that start with it; every item of every row of the
    scan is printed.  No other call of the run reads rows.  Whatever its
    result, a run of [readEntireTable] prints every item of every row
    that the scan delivered. *)
Theorem main_read_stage (f : flag.t) (t : list entry) :
  runs (main f) t Returned ->
  (exists (before after : list entry) (dc : option Client)
          (table1 table2 : option Table) (row : Row) (rows : list Row),
     t = before
         ++ [ Entry (LogPrintf
                 ("Attempting to read a single row from table %q..." ++ LF)
                   %string
                 [VString (flag.tableID f)]) tt;
              Entry (Open dc (flag.tableID f)) table1;
              Entry (ReadRow table1 (flag.rowKeyPrefix f ++ "0")%string)
                (row, None) ]
         ++ rowEntries row
         ++ [ Entry (LogPrintf
                 ("Attempting to read the entire table %q..." ++ LF)%string
                 [VString (flag.tableID f)]) tt;
              Entry (Open dc (flag.tableID f)) table2;
              Entry (ReadRows table2 (PrefixRange (flag.rowKeyPrefix f)))
                (rows, None) ]
         ++ flat_map rowEntries rows
         ++ after /\
     Forall (fun en => selected isRead en = false) before /\
     Forall (fun en => selected isRead en = false) after) /\
  (forall key : string,
     RowSet_contains (PrefixRange (flag.rowKeyPrefix f)) key = true <->
     exists rest : string, key = (flag.rowKeyPrefix f ++ rest)%string) /\
  (forall (client : option Client) (t' : list entry) (r' : option error),
     runs (readEntireTable client (flag.tableID f) (flag.rowKeyPrefix f))
       t' r' ->
     exists (table : option Table) (rows : list Row) (err : option error),
       t' = Entry (Open client (flag.tableID f)) table
            :: match table with
               | None => []
               | Some _ =>
                   Entry (ReadRows table (PrefixRange (flag.rowKeyPrefix f)))
                     (rows, err)
                   :: flat_map rowEntries rows
               end).
Proof.
  intros H; split; [| split].
  - apply main_returned in H
      as (ac & dc & tDC & tCT & tW & tR1 & tR2 & x & y
          & HDC & HCT & HW & HR1 & HR2 & ->); [| reflexivity].
    apply readSingleRowFromTable_runs in HR1 as (table1 & t1 & -> & HR1).
    destruct table1 as [tb1 |]; [| destruct HR1; discriminate].
    destruct HR1 as (row & [e |] & HR1); [destruct HR1; discriminate |].
    destruct HR1 as [-> _].
    apply readEntireTable_runs in HR2 as (table2 & t2 & -> & HR2).
    destruct table2 as [tb2 |]; [| destruct HR2; discriminate].
    destruct HR2 as (rows & [e |] & -> & HR2); [discriminate |].
    match goal with
    | |- context [?a ++ tDC ++ ?b ++ tCT ++ ?c ++ tW ++ _] =>
        exists (a ++ tDC ++ b ++ tCT ++ c ++ tW)
    end.
    match goal with
    | |- context [(if ?b then ?u else ?v) ++ ?w] =>
        exists ((if b then u else v) ++ w)
    end.
    exists dc, (Some tb1), (Some tb2), row, rows.
    split; [| split].
    + repeat rewrite <- app_assoc; reflexivity.
    + no_call.
    + destruct (flag.skipTableDeletion f); no_call.
  - intros key; apply prefix_iff.
  - intros client t' r' H'.
    apply readEntireTable_runs in H' as (table & t'' & -> & H').
    destruct table as [tb |].
    + destruct H' as (rows & err & -> & _).
      exists (Some tb), rows, err; reflexivity.
    + destruct H' as [-> _]; exists None, [], None; reflexivity.
Qed.

(** The run of [main] with the default flags against the empty reference
    service returns, and its trace has the read stage of the theorem. *)
Lemma main_read_stage_witness :
  exists (before after : list entry) (dc : option Client)
         (table1 table2 : option Table) (row : Row) (rows : list Row),
    (exec Ref.answer (main flag.defaults) ∅).1.1
    = before
      ++ [ Entry (LogPrintf
              ("Attempting to read a single row from table %q..." ++ LF)
                %string
              [VString (flag.tableID flag.defaults)]) tt;
           Entry (Open dc (flag.tableID flag.defaults)) table1;
           Entry (ReadRow table1
                    (flag.rowKeyPrefix flag.defaults ++ "0")%string)
             (row, None) ]
      ++ rowEntries row
      ++ [ Entry (LogPrintf
              ("Attempting to read the entire table %q..." ++ LF)%string
              [VString (flag.tableID flag.defaults)]) tt;
           Entry (Open dc (flag.tableID flag.defaults)) table2;
           Entry (ReadRows table2
                    (PrefixRange (flag.rowKeyPrefix flag.defaults)))
             (rows, None) ]
      ++ flat_map rowEntries rows
      ++ after /\
    Forall (fun en => selected isRead en = false) before /\
    Forall (fun en => selected isRead en = false) after.
Proof.
  pose proof (exec_runs Ref.answer (main flag.defaults) ∅) as H.
  replace (exec Ref.answer (main flag.defaults) ∅).1.2 with Returned in H
    by (vm_compute; reflexivity).
  exact (proj1 (main_read_stage flag.defaults _ H)).
Defined.

(** C7.  With the flag that skips the table deletion set, no run of
    [main] makes a call that deletes a table, and a run that returns ends
    with the scan of the read stage followed only by the deferred closing
    of the two clients.  With the flag unset, a run of [main] that returns
    has deleted the table named by the flags: after the read stage it
    makes one call that deletes this table, answered with success, and
    no other.  On the reference service the run returns in both cases;
    the table is in place at the end when the deletion is skipped, and
    gone when it is not. *)
Theorem main_skip_table_deletion (f : flag.t) (t : list entry) (r : exit) :
  runs (main f) t r ->
  (flag.skipTableDeletion f = true ->
     Forall (fun en => selected isDeleteTable en = false) t /\
     (r = Returned ->
        exists (t0 tR2 : list entry) (ac : option AdminClient)
               (dc : option Client) (x y : option error),
          runs (readEntireTable dc (flag.tableID f) (flag.rowKeyPrefix f))
            tR2 None /\
          t = t0 ++ tR2
              ++ [Entry (ClientClose dc) x; Entry (AdminClose ac) y])) /\
  (flag.skipTableDeletion f = false -> r = Returned ->
     exists (t0 tR2 : list entry) (ac : option AdminClient)
            (dc : option Client) (x y : option error),
       runs (readEntireTable dc (flag.tableID f) (flag.rowKeyPrefix f))
         tR2 None /\
       Forall (fun en => selected isDeleteTable en = false) (t0 ++ tR2) /\
       t = t0 ++ tR2
           ++ [ Entry (LogPrintf
                         ("Attempting to delete table %q..." ++ LF)%string
                         [VString (flag.tableID f)]) tt;
                Entry (DeleteTable ac (flag.tableID f)) None;
                Entry (LogPrintf ("Table %q deleted" ++ LF)%string
                         [VString (flag.tableID f)]) tt;
                Entry (ClientClose dc) x;
                Entry (AdminClose ac) y ]) /\
  (forall s : Ref.store,
     let '(r', s') := outcome Ref.answer (main f) s in
     r' = Returned /\
     if flag.skipTableDeletion f
     then is_Some (s' !! flag.tableID f)
     else s' !! flag.tableID f = None).
Proof.
  intros H; split; [| split].
  - intros Hskip; split.
    + eapply avoids_runs; [apply main_no_delete; exact Hskip | exact H].
    + intros Hr.
      apply main_returned in H
        as (ac & dc & tDC & tCT & tW & tR1 & tR2 & x & y
            & HDC & HCT & HW & HR1 & HR2 & ->); [| exact Hr].
      rewrite Hskip.
      match goal with
      | |- context [?a ++ tDC ++ ?b ++ tCT ++ ?c ++ tW ++ ?d ++ tR1
                    ++ ?e ++ tR2 ++ _] =>
          exists (a ++ tDC ++ b ++ tCT ++ c ++ tW ++ d ++ tR1 ++ e)
      end.
      exists tR2, ac, dc, x, y; split; [exact HR2 |].
      repeat rewrite <- app_assoc; reflexivity.
  - intros Hskip Hr.
    apply main_returned in H
      as (ac & dc & tDC & tCT & tW & tR1 & tR2 & x & y
          & HDC & HCT & HW & HR1 & HR2 & ->); [| exact Hr].
    rewrite Hskip.
    match goal with
    | |- context [?a ++ tDC ++ ?b ++ tCT ++ ?c ++ tW ++ ?d ++ tR1
                  ++ ?e ++ tR2 ++ _] =>
        exists (a ++ tDC ++ b ++ tCT ++ c ++ tW ++ d ++ tR1 ++ e)
    end.
    exists tR2, ac, dc, x, y; split; [exact HR2 |]; split.
    + no_call.
    + repeat rewrite <- app_assoc; reflexivity.
  - intros s; rewrite main_ref; split; [reflexivity |]; cbn zeta.
    assert (Hsome : is_Some
              (match s !! flag.tableID f with
               | Some _ => s
               | None => <[flag.tableID f := [flag.columnFamily f]]> s
               end !! flag.tableID f)).
    { destruct (s !! flag.tableID f) eqn:E; [rewrite E; eauto |].
      rewrite lookup_insert_eq; eauto. }
    destruct (flag.skipTableDeletion f); [exact Hsome |].
    apply lookup_delete_eq.
Qed.

(** The run of [main] with the default flags, which do not skip the
    deletion, against the empty reference service: it returns, and its
    trace ends with the deletion of the table and the deferred calls. *)
Lemma main_skip_table_deletion_witness :
  exists (t0 tR2 : list entry) (ac : option AdminClient)
         (dc : option Client) (x y : option error),
    runs (readEntireTable dc (flag.tableID flag.defaults)
            (flag.rowKeyPrefix flag.defaults)) tR2 None /\
    Forall (fun en => selected isDeleteTable en = false) (t0 ++ tR2) /\
    (exec Ref.answer (main flag.defaults) ∅).1.1
    = t0 ++ tR2
      ++ [ Entry (LogPrintf
                    ("Attempting to delete table %q..." ++ LF)%string
                    [VString (flag.tableID flag.defaults)]) tt;
           Entry (DeleteTable ac (flag.tableID flag.defaults)) None;
           Entry (LogPrintf ("Table %q deleted" ++ LF)%string
                    [VString (flag.tableID flag.defaults)]) tt;
           Entry (ClientClose dc) x;
           Entry (AdminClose ac) y ].
Proof.
  pose proof (exec_runs Ref.answer (main flag.defaults) ∅) as H.
  replace (exec Ref.answer (main flag.defaults) ∅).1.2 with Returned in H
    by (vm_compute; reflexivity).
  exact (proj1 (proj2 (main_skip_table_deletion flag.defaults _ _ H))
           eq_refl eq_refl).
Defined.

(** ** Further properties of the reading functions *)

Section AvoidsReading.
Variable P : selector.
Hypothesis P_LogPrintf : forall f args, P _ (LogPrintf f args) = false.
Hypothesis P_Open : forall c table, P _ (Open c table) = false.
Hypothesis P_ReadRow : forall t row, P _ (ReadRow t row) = false.
Hypothesis P_ReadRows : forall t rs, P _ (ReadRows t rs) = false.

Lemma avoids_readSingleRowFromTable (client : option Client)
    (tableID rowKeyPrefix : string) :
  avoids P (readSingleRowFromTable client tableID rowKeyPrefix).
Proof.
  unfold readSingleRowFromTable; cbn [avoids bind mbind prog_bind call].
  split; [apply P_Open |]; intros [tb |]; [| exact I].
  cbn [avoids bind mbind prog_bind call].
  split; [apply P_ReadRow |]; intros [row [e |]]; [exact I |].
  apply avoids_bind; [apply avoids_logRow; exact P_LogPrintf |].
  intros _; exact I.
Qed.

Lemma avoids_readEntireTable (client : option Client)
    (tableID rowKeyPrefix : string) :
  avoids P (readEntireTable client tableID rowKeyPrefix).
Proof.
  unfold readEntireTable, Table_ReadRows;
    cbn [avoids bind mbind prog_bind call].
  split; [apply P_Open |]; intros [tb |]; [| exact I].
  cbn [avoids bind mbind prog_bind call].
  split; [apply P_ReadRows |]; intros [rows err].
  apply avoids_bind.
  - apply avoids_bind; [| intros all; exact I].
    induction rows as [| row rows IH]; cbn [feedRows]; [exact I |].
    apply avoids_bind.
    + apply avoids_bind; [apply avoids_logRow; exact P_LogPrintf |].
      intros _; exact I.
    + intros [|]; [exact IH | exact I].
  - intros [e |]; exact I.
Qed.
End AvoidsReading.

(** X1.  When [readSingleRowFromTable] returns an error it has printed
    nothing, and the run is one of two: the table could not be opened, or
    the read of the row failed right after the table was opened.  In the
    second case the error that is returned names the row key only; the
    error that the library answered is not part of it. *)
Theorem readSingleRowFromTable_failure (client : option Client)
    (tableID rowKeyPrefix : string) (t : list entry) (r : option error)
    (e : error) :
  runs (readSingleRowFromTable client tableID rowKeyPrefix) t r ->
  r = Some e ->
  Forall (fun en => selected isLogPrintf en = false) t /\
  ((t = [Entry (Open client tableID) None] /\
    e = Errorf "failed to open table %q" [VString tableID]) \/
   (exists (tb : Table) (row : Row) (cause : error),
      t = [ Entry (Open client tableID) (Some tb);
            Entry (ReadRow (Some tb) (rowKeyPrefix ++ "0")%string)
              (row, Some cause) ] /\
      e = Errorf "failed to read row %q"
            [VString (rowKeyPrefix ++ "0")%string])).
Proof.
  intros H ->; apply readSingleRowFromTable_runs in H as (tb & t' & -> & H).
  destruct tb as [tb |].
  - destruct H as (row & [cause |] & -> & Hr); [| discriminate Hr].
    injection Hr as <-; split; [repeat constructor |].
    right; exists tb, row, cause; auto.
  - destruct H as [-> Hr]; injection Hr as <-.
    split; [repeat constructor | left; auto].
Qed.

(** A run in which the service does not answer the read of the row. *)
Lemma readSingleRowFromTable_failure_witness :
  Forall (fun en => selected isLogPrintf en = false)
    [ Entry (Open None "t") (Some (TableRef 0));
      Entry (ReadRow (Some (TableRef 0)) "row_key_0")
        ([], Some (StatusError codes.Unavailable "down")) ] /\
  (([ Entry (Open None "t") (Some (TableRef 0));
      Entry (ReadRow (Some (TableRef 0)) "row_key_0")
        ([], Some (StatusError codes.Unavailable "down")) ]
    = [Entry (Open None "t") None] /\
    Errorf "failed to read row %q" [VString "row_key_0"]
    = Errorf "failed to open table %q" [VString "t"]) \/
   (exists (tb : Table) (row : Row) (cause : error),
      [ Entry (Open None "t") (Some (TableRef 0));
        Entry (ReadRow (Some (TableRef 0)) "row_key_0")
          ([], Some (StatusError codes.Unavailable "down")) ]
      = [ Entry (Open None "t") (Some tb);
          Entry (ReadRow (Some tb) ("row_key_" ++ "0")%string)
            (row, Some cause) ] /\
      Errorf "failed to read row %q" [VString "row_key_0"]
      = Errorf "failed to read row %q"
          [VString ("row_key_" ++ "0")%string])).
Proof.
  apply (readSingleRowFromTable_failure None "t" "row_key_" _
           (Some (Errorf "failed to read row %q" [VString "row_key_0"]))).
  - vm_compute.
    repeat (eexists _, _; split; [reflexivity |]); split; reflexivity.
  - reflexivity.
Defined.

Lemma rowEntries_printed (rows : list Row) :
  List.filter (selected isLogPrintf) (flat_map rowEntries rows)
  = flat_map rowEntries rows /\
  Forall (fun en => selected isRead en = false) (flat_map rowEntries rows) /\
  length (flat_map rowEntries rows)
  = list_sum (map (fun row => list_sum (map (fun fam => length fam.2) row))
                rows).
Proof.
  assert (Hrow : forall row : Row,
            List.filter (selected isLogPrintf) (rowEntries row)
            = rowEntries row /\
            Forall (fun en => selected isRead en = false) (rowEntries row) /\
            length (rowEntries row)
            = list_sum (map (fun fam => length fam.2) row)).
  { induction row as [| [cf ris] row (IH1 & IH2 & IH3)];
      [repeat split; constructor |].
    unfold rowEntries in *; cbn [flat_map map list_sum snd].
    rewrite List.filter_app, IH1, length_app, IH3, length_map.
    rewrite Forall_app.
    assert (Hris : List.filter (selected isLogPrintf) (map (itemEntry cf) ris)
                   = map (itemEntry cf) ris /\
                   Forall (fun en => selected isRead en = false)
                     (map (itemEntry cf) ris)).
    { clear; induction ris as [| ri ris [IH1 IH2]];
        [split; constructor |].
      cbn [map List.filter itemEntry selected isLogPrintf].
      rewrite IH1; split; [reflexivity |].
      constructor; [reflexivity | exact IH2]. }
    destruct Hris as [-> Hread]; auto. }
  induction rows as [| row rows (IH1 & IH2 & IH3)];
    [repeat split; constructor |].
  destruct (Hrow row) as (H1 & H2 & H3).
  cbn [flat_map map list_sum].
  rewrite List.filter_app, H1, IH1, length_app, H3, IH3, Forall_app; auto.
Qed.

(** X2.  [readEntireTable] returns nil exactly when the table was opened
    and the stream of the scan ended without error.  The callback never
    stops the scan, so that an error of the stream is never hidden: it is
    returned, wrapped with the table name, after the rows that came
    before it were printed, one line for each item. *)
Theorem readEntireTable_result (client : option Client)
    (tableID rowKeyPrefix : string) (t : list entry) (r : option error)
    (tb : option Table) (rows : list Row) (err : option error) :
  runs (readEntireTable client tableID rowKeyPrefix) t r ->
  In (Entry (ReadRows tb (PrefixRange rowKeyPrefix)) (rows, err)) t ->
  (r = None <-> err = None) /\
  (forall e, err = Some e ->
     r = Some (Errorf "failed to read rows from table %q: %v"
                 [VString tableID; VError e])) /\
  List.filter (selected isLogPrintf) t = flat_map rowEntries rows /\
  length (List.filter (selected isLogPrintf) t)
  = list_sum (map (fun row => list_sum (map (fun fam => length fam.2) row))
                rows).
Proof.
  intros H Hin.
  apply readEntireTable_runs in H as (table & t' & -> & H).
  set (scanOf := fun en : entry =>
         match en with
         | Entry e x =>
             match e in event X
                   return X -> option (list Row * option error) with
             | ReadRows _ _ => fun x => Some x
             | _ => fun _ => None
             end x
         end).
  assert (Hlogs : forall rows' en,
            In en (flat_map rowEntries rows') -> scanOf en = None).
  { intros rows' en Hen.
    destruct (rowEntries_printed rows') as (_ & Hread & _).
    rewrite Forall_forall in Hread.
    apply list_elem_of_In, Hread in Hen.
    destruct en as [X e x]; destruct e; try reflexivity; discriminate Hen. }
  destruct table as [tbl |].
  - destruct H as (rows' & err' & -> & Hr).
    destruct Hin as [Hin | [Hin | Hin]].
    + apply (f_equal scanOf) in Hin; discriminate Hin.
    + apply (f_equal scanOf) in Hin; injection Hin as <- <-.
      destruct (rowEntries_printed rows') as (Hf & _ & Hlen).
      cbn [List.filter selected isLogPrintf]; rewrite Hf, Hlen.
      subst r; split; [destruct err'; split; congruence |].
      split; [intros e ->; reflexivity | split; reflexivity].
    + apply Hlogs in Hin; discriminate Hin.
  - destruct H as [-> _]; destruct Hin as [Hin | []].
    apply (f_equal scanOf) in Hin; discriminate Hin.
Qed.

(** A scan that delivers two rows, of two items and of one item, and then
    fails: the three items are printed and the error is returned. *)
Lemma readEntireTable_result_witness :
  let item := fun (key value : string) =>
    {| ri_Row := key; ri_Column := "cf1:greeting"; ri_Timestamp := 7%Z;
       ri_Value := value |} in
  let rows : list Row :=
    [ [("cf1", [item "row_key_0" "a"; item "row_key_0" "b"])];
      [("cf1", [item "row_key_1" "c"])] ] in
  let t :=
    Entry (Open None "t") (Some (TableRef 0))
    :: Entry (ReadRows (Some (TableRef 0)) (PrefixRange "row_key_"))
         (rows, Some (OtherError "stream broken"))
    :: flat_map rowEntries rows in
  (Some (Errorf "failed to read rows from table %q: %v"
           [VString "t"; VError (OtherError "stream broken")]) = None <->
   Some (OtherError "stream broken") = None) /\
  (forall e, Some (OtherError "stream broken") = Some e ->
     Some (Errorf "failed to read rows from table %q: %v"
             [VString "t"; VError (OtherError "stream broken")])
     = Some (Errorf "failed to read rows from table %q: %v"
               [VString "t"; VError e])) /\
  List.filter (selected isLogPrintf) t = flat_map rowEntries rows /\
  length (List.filter (selected isLogPrintf) t)
  = list_sum (map (fun row => list_sum (map (fun fam => length fam.2) row))
                rows).
Proof.
  cbv zeta.
  apply (readEntireTable_result None "t" "row_key_" _ _
           (Some (TableRef 0))).
  - vm_compute.
    repeat (eexists _, _; split; [reflexivity |]); split; reflexivity.
  - right; left; reflexivity.
Defined.

(** X3.  When the library answers a nil table to [Open], each of the three
    functions on the data of the table stops there: it makes no other call
    and returns the error that names the table. *)
Theorem open_nil_stops (client : option Client)
    (tableID cf cq rowKeyPrefix : string) :
  let failed :=
    Some (Errorf "failed to open table %q" [VString tableID]) in
  (forall t r,
     runs (writeToTable client tableID cf cq rowKeyPrefix)
       (Entry (Open client tableID) None :: t) r ->
     t = [] /\ r = failed) /\
  (forall t r,
     runs (readSingleRowFromTable client tableID rowKeyPrefix)
       (Entry (Open client tableID) None :: t) r ->
     t = [] /\ r = failed) /\
  (forall t r,
     runs (readEntireTable client tableID rowKeyPrefix)
       (Entry (Open client tableID) None :: t) r ->
     t = [] /\ r = failed).
Proof.
  set (tableOf := fun en : entry =>
         match en with
         | Entry e x =>
             match e in event X return X -> option (option Table) with
             | Open _ _ => fun x => Some x
             | _ => fun _ => None
             end x
         end).
  cbv zeta; split; [| split]; intros t r H.
  - apply writeToTable_runs in H as (table & t' & Heq & H).
    pose proof (f_equal (fun l => option_map tableOf (head l)) Heq) as Hen.
    apply (f_equal tail) in Heq; simpl in Heq, Hen; subst t'.
    injection Hen as <-; exact H.
  - apply readSingleRowFromTable_runs in H as (table & t' & Heq & H).
    pose proof (f_equal (fun l => option_map tableOf (head l)) Heq) as Hen.
    apply (f_equal tail) in Heq; simpl in Heq, Hen; subst t'.
    injection Hen as <-; exact H.
  - apply readEntireTable_runs in H as (table & t' & Heq & H).
    pose proof (f_equal (fun l => option_map tableOf (head l)) Heq) as Hen.
    apply (f_equal tail) in Heq; simpl in Heq, Hen; subst t'.
    injection Hen as <-; exact H.
Qed.

(** ** Further properties of the writing function *)








Lemma written_counts (table : option Table) (cf cq rowKeyPrefix : string)
    (done : list string) (i : Z) (tss : list Timestamp) :
  length tss = length done ->
  length (List.filter acceptedApply (written table cf cq rowKeyPrefix done
                                       i tss)) = length done /\
  length (List.filter (selected isLogPrintf)
            (written table cf cq rowKeyPrefix done i tss)) = length done.
Proof.
  revert i tss; induction done as [| g done IH]; intros i [| ts tss] Hlen;
    try discriminate Hlen; [split; reflexivity |].
  destruct (IH (i + 1)%Z tss) as [IH1 IH2]; [simpl in Hlen; lia |].
  cbn [written]; rewrite !List.filter_app, !length_app, IH1, IH2.
  split; reflexivity.
Qed.

(** X8.  In every run of [writeToTable] the lines that say that a
    greeting was written are as many as the mutations that the service
    accepted, at most three, and the function returns nil exactly when
    three mutations were accepted. *)
Theorem writeToTable_logs_accepted (client : option Client)
    (tableID cf cq rowKeyPrefix : string) (t : list entry)
    (r : option error) :
  runs (writeToTable client tableID cf cq rowKeyPrefix) t r ->
  length (List.filter (selected isLogPrintf) t)
  = length (List.filter acceptedApply t) /\
  length (List.filter acceptedApply t) <= 3 /\
  (r = None <-> length (List.filter acceptedApply t) = 3).
Proof.
  intros H; apply writeToTable_runs in H as (tbl & t' & -> & H).
  destruct tbl as [tb |].
  - cbn [List.filter acceptedApply applyOf selected isLogPrintf].
    apply writeLoop_runs in H
      as [(tss & Hlen & -> & ->) |
          (done & g & rest & tss & ts & e & Hg & Hlen & -> & ->)].
    + destruct (written_counts (Some tb) cf cq rowKeyPrefix greetings 0 tss
                  Hlen) as [-> ->].
      repeat split; auto.
    + assert (Hn : length done < 3).
      { apply (f_equal length) in Hg; rewrite length_app in Hg.
        simpl in Hg; lia. }
      destruct (written_counts (Some tb) cf cq rowKeyPrefix done 0 tss Hlen)
        as [Ha Hl].
      rewrite !List.filter_app, !length_app, Ha, Hl; simpl.
      repeat split; try lia; discriminate.
  - destruct H as [-> ->]; simpl.
    repeat split; try lia; discriminate.
Qed.

(** A run in which the three mutations are accepted: three lines. *)
Lemma writeToTable_logs_accepted_witness :
  let t :=
    Entry (Open None "t") (Some (TableRef 0))
    :: written (Some (TableRef 0)) "cf1" "greeting" "row_key_" greetings 0
         [10; 20; 30]%Z in
  length (List.filter (selected isLogPrintf) t)
  = length (List.filter acceptedApply t) /\
  length (List.filter acceptedApply t) <= 3 /\
  (@None error = None <-> length (List.filter acceptedApply t) = 3).
Proof.
  cbv zeta.
  apply (writeToTable_logs_accepted None "t" "cf1" "greeting" "row_key_").
  vm_compute.
  repeat (eexists _, _; split; [reflexivity |]); split; reflexivity.
Defined.

(** ** Further properties against the reference service *)

(** X7.  On the reference service [createTable] is idempotent: after a
    first call, a second call for the same table, with the same or with
    another column family, is the existence check alone, returns nil and
    leaves the service as the first call left it. *)
Theorem createTable_idempotent (ac ac' : option AdminClient)
    (tableID cf cf' : string) (s : Ref.store) :
  let '(_, _, s1) := exec Ref.answer (createTable ac tableID cf) s in
  exec Ref.answer (createTable ac' tableID cf') s1
  = ([Entry (TableInfo ac' tableID) None], None, s1).
Proof.
  rewrite createTable_ref.
  destruct (s !! tableID) as [fams |] eqn:E; rewrite createTable_ref.
  - rewrite E; reflexivity.
  - rewrite lookup_insert_eq; reflexivity.
Qed.

(** X12.  On the reference service a run of [main] returns and touches
    no table but the one named by the flags.  Without the flag that skips
    the deletion this table is gone at the end whether the run created it
    or found it: a table that was there before the run, whatever its
    column families, is deleted.  With the flag, a table that was there
    is left as it was, and one that was not is there with the one column
    family of the flags. *)
Theorem main_effect_on_service (f : flag.t) (s : Ref.store) :
  let '(r, s') := outcome Ref.answer (main f) s in
  r = Returned /\
  (forall other : string,
     other <> flag.tableID f -> s' !! other = s !! other) /\
  (if flag.skipTableDeletion f
   then match s !! flag.tableID f with
        | Some _ => s' = s
        | None => s' = <[flag.tableID f := [flag.columnFamily f]]> s
        end
   else s' = delete (flag.tableID f) s).
Proof.
  rewrite main_ref; cbn zeta; split; [reflexivity |].
  destruct (flag.skipTableDeletion f), (s !! flag.tableID f) eqn:E;
    (split; [intros other Hne |]); try reflexivity.
  - rewrite lookup_insert_ne by congruence; reflexivity.
  - rewrite lookup_delete_ne by congruence; reflexivity.
  - rewrite lookup_delete_ne, lookup_insert_ne by congruence; reflexivity.
  - apply delete_insert_eq.
Qed.

(** ** How a run of [main] ends *)

Lemma createDataClient_no_close
    (project instance endpoint appProfile : string) (enable : bool) :
  avoids isCloseOrFatal
    (createDataClient project instance endpoint appProfile enable).
Proof. unfold createDataClient; avoids_tac. Qed.

Lemma createTable_no_close (ac : option AdminClient) (tableID cf : string) :
  avoids isCloseOrFatal (createTable ac tableID cf).
Proof. unfold createTable; avoids_tac. Qed.

Lemma writeToTable_no_close (client : option Client)
    (tableID cf cq rowKeyPrefix : string) :
  avoids isCloseOrFatal (writeToTable client tableID cf cq rowKeyPrefix).
Proof. apply avoids_writeToTable; reflexivity. Qed.

Lemma readSingleRowFromTable_no_close (client : option Client)
    (tableID rowKeyPrefix : string) :
  avoids isCloseOrFatal
    (readSingleRowFromTable client tableID rowKeyPrefix).
Proof. apply avoids_readSingleRowFromTable; reflexivity. Qed.

Lemma readEntireTable_no_close (client : option Client)
    (tableID rowKeyPrefix : string) :
  avoids isCloseOrFatal (readEntireTable client tableID rowKeyPrefix).
Proof. apply avoids_readEntireTable; reflexivity. Qed.

#[local] Hint Resolve createDataClient_no_close createTable_no_close
  writeToTable_no_close readSingleRowFromTable_no_close
  readEntireTable_no_close : avoids.

Lemma snoc_nil {A : Type} (x : A) : [x] = [] ++ [x].
Proof. reflexivity. Qed.

Lemma snoc_cons {A : Type} (a x : A) (l t0 : list A) :
  l = t0 ++ [x] -> a :: l = (a :: t0) ++ [x].
Proof. intros ->; reflexivity. Qed.

Lemma snoc_app {A : Type} (x : A) (l1 l2 t0 : list A) :
  l2 = t0 ++ [x] -> l1 ++ l2 = (l1 ++ t0) ++ [x].
Proof. intros ->; rewrite app_assoc; reflexivity. Qed.

Ltac snoc :=
  repeat first [apply snoc_nil | apply snoc_cons | apply snoc_app].

Ltac fatal_end :=
  units; split; [reflexivity |];
  eexists _, _, _; split; [snoc | no_call].

(** A run of [main] that does not return ends on the fatal log line of
    the stage that failed, with status 1; before that line it has logged
    nothing fatal and closed no client. *)
Lemma main_exited (f : flag.t) (t : list entry) (r : exit) :
  runs (main f) t r -> r <> Returned ->
  r = Exited 1 /\
  exists (t0 : list entry) (format : string) (args : list value),
    t = t0 ++ [Entry (LogFatalf format args) tt] /\
    Forall (fun en => selected isCloseOrFatal en = false) t0.
Proof.
  unfold main, Fatalf; intros H Hr; run_inv H.
  destruct x0 as [ac [e |]]; run_inv H; [fatal_end |].
  run_bind H tDC a HDC.
  destruct a as [dc [e |]]; run_inv H; [fatal_end |].
  cbn zeta in H; run_inv H.
  run_bind H tCT a HCT; destruct a as [e |]; run_inv H; [fatal_end |].
  run_bind H tW a HW; destruct a as [e |]; run_inv H; [fatal_end |].
  run_bind H tR1 a HR1; destruct a as [e |]; run_inv H; [fatal_end |].
  run_bind H tR2 a HR2; destruct a as [e |]; run_inv H; [fatal_end |].
  destruct (flag.skipTableDeletion f).
  - run_inv H; contradiction Hr; reflexivity.
  - cbn [runs bind mbind prog_bind call] in H.
    destruct H as (u & t' & -> & derr & t'' & -> & H).
    destruct derr as [e |]; run_inv H; [fatal_end |].
    contradiction Hr; reflexivity.
Qed.

(** X4.  A run of [main] ends in one of two ways.  Either it returns, and
    then its last two calls close the data client and the admin client,
    in this order, each once, these being the clients that the run
    created; it logged nothing fatal.  Or it exits with status 1 right
    after the one fatal log line of the stage that failed, and then no
    client is closed: the deferred calls do not run. *)
Theorem main_exit_and_close (f : flag.t) (t : list entry) (r : exit) :
  runs (main f) t r ->
  (r = Returned /\
   exists (t0 : list entry) (ac : option AdminClient) (dc : option Client)
          (x y : option error),
     t = t0 ++ [Entry (ClientClose dc) x; Entry (AdminClose ac) y] /\
     Forall (fun en => selected isCloseOrFatal en = false) t0 /\
     In (Entry (NewAdminClient (flag.projectID f) (flag.instanceID f)
                  [WithEndpoint cbtAdminTestEndpoint]) (ac, None)) t0 /\
     Exists (fun en => constructedClient en = Some dc) t0) \/
  (r = Exited 1 /\
   exists (t0 : list entry) (format : string) (args : list value),
     t = t0 ++ [Entry (LogFatalf format args) tt] /\
     Forall (fun en => selected isCloseOrFatal en = false) t0).
Proof.
  intros H; destruct r as [| status].
  - left; split; [reflexivity |].
    apply main_returned in H
      as (ac & dc & tDC & tCT & tW & tR1 & tR2 & x & y
          & HDC & HCT & HW & HR1 & HR2 & ->); [| reflexivity].
    match goal with
    | |- context [?a ++ tDC ++ ?b ++ tCT ++ ?c ++ tW ++ ?d ++ tR1
                  ++ ?e ++ tR2 ++ ?g ++ _] =>
        exists (a ++ tDC ++ b ++ tCT ++ c ++ tW ++ d ++ tR1 ++ e ++ tR2
                ++ g)
    end.
    exists ac, dc, x, y; split; [| split; [| split]].
    + repeat rewrite <- app_assoc; reflexivity.
    + destruct (flag.skipTableDeletion f); no_call.
    + right; left; reflexivity.
    + apply Exists_app; right; apply Exists_app; left.
      apply createDataClient_runs in HDC as (cc & [e |] & HDC).
      * destruct HDC as [_ Hd]; discriminate Hd.
      * subst tDC; apply Exists_cons; right; apply Exists_cons; left.
        destruct (negb (String.eqb (flag.appProfile f) EmptyString));
          reflexivity.
  - right; apply (main_exited f); [exact H | discriminate].
Qed.

(** The run of [main] with the default flags against the empty reference
    service returns and closes its two clients. *)
Lemma main_exit_and_close_witness :
  (Returned = Returned /\
   exists (t0 : list entry) (ac : option AdminClient) (dc : option Client)
          (x y : option error),
     (exec Ref.answer (main flag.defaults) ∅).1.1
     = t0 ++ [Entry (ClientClose dc) x; Entry (AdminClose ac) y] /\
     Forall (fun en => selected isCloseOrFatal en = false) t0 /\
     In (Entry (NewAdminClient (flag.projectID flag.defaults)
                  (flag.instanceID flag.defaults)
                  [WithEndpoint cbtAdminTestEndpoint]) (ac, None)) t0 /\
     Exists (fun en => constructedClient en = Some dc) t0) \/
  (Returned = Exited 1 /\
   exists (t0 : list entry) (format : string) (args : list value),
     (exec Ref.answer (main flag.defaults) ∅).1.1
     = t0 ++ [Entry (LogFatalf format args) tt] /\
     Forall (fun en => selected isCloseOrFatal en = false) t0).
Proof.
  pose proof (exec_runs Ref.answer (main flag.defaults) ∅) as H.
  replace (exec Ref.answer (main flag.defaults) ∅).1.2 with Returned in H
    by (vm_compute; reflexivity).
  exact (main_exit_and_close flag.defaults _ _ H).
Defined.

(** ** What [main] does before it touches the data *)



Lemma createDataClient_no_data
    (project instance endpoint appProfile : string) (enable : bool) :
  avoids isDataCall
    (createDataClient project instance endpoint appProfile enable).
Proof. unfold createDataClient; avoids_tac. Qed.

Lemma createTable_no_data (ac : option AdminClient) (tableID cf : string) :
  avoids isDataCall (createTable ac tableID cf).
Proof. unfold createTable; avoids_tac. Qed.

#[local] Hint Resolve createDataClient_no_data createTable_no_data : avoids.





(** ** The variant without the RLS channel *)

Lemma createTable_no_dial (ac : option AdminClient) (tableID cf : string) :
  avoids isDial (createTable ac tableID cf).
Proof. unfold createTable; avoids_tac. Qed.

Lemma writeToTable_no_dial (client : option Client)
    (tableID cf cq rowKeyPrefix : string) :
  avoids isDial (writeToTable client tableID cf cq rowKeyPrefix).
Proof. apply avoids_writeToTable; reflexivity. Qed.

Lemma readSingleRowFromTable_no_dial (client : option Client)
    (tableID rowKeyPrefix : string) :
  avoids isDial (readSingleRowFromTable client tableID rowKeyPrefix).
Proof. apply avoids_readSingleRowFromTable; reflexivity. Qed.

Lemma readEntireTable_no_dial (client : option Client)
    (tableID rowKeyPrefix : string) :
  avoids isDial (readEntireTable client tableID rowKeyPrefix).
Proof. apply avoids_readEntireTable; reflexivity. Qed.

#[local] Hint Resolve createTable_no_dial writeToTable_no_dial
  readSingleRowFromTable_no_dial readEntireTable_no_dial : avoids.

Lemma Plain_main_no_dial (f : Plain.flags) : avoids isDial (Plain.main f).
Proof. unfold Plain.main, Fatalf; avoids_tac. Qed.

Lemma suffix_nil {A : Type} (l : list A) : l = [] ++ l.
Proof. reflexivity. Qed.

Lemma suffix_cons {A : Type} (a : A) (l t0 s : list A) :
  l = t0 ++ s -> a :: l = (a :: t0) ++ s.
Proof. intros ->; reflexivity. Qed.

Lemma suffix_app {A : Type} (l1 l2 t0 s : list A) :
  l2 = t0 ++ s -> l1 ++ l2 = (l1 ++ t0) ++ s.
Proof. intros ->; rewrite app_assoc; reflexivity. Qed.

Ltac suffix :=
  repeat first [apply suffix_nil | apply suffix_cons | apply suffix_app].

(** X9.  The variant of the harness without the RLS channel never dials a
    connection of its own: its data client is made by the library for
    the data endpoint.  It has no way to skip the teardown: every run that
    returns has deleted the table named by the flags, with one successful
    call made after all the other stages and before the deferred closing
    of the two clients. *)
Theorem Plain_main_deletes (f : Plain.flags) (t : list entry) (r : exit) :
  runs (Plain.main f) t r ->
  Forall (fun en => selected isDial en = false) t /\
  (r = Returned ->
   exists (t0 : list entry) (ac : option AdminClient) (dc : option Client)
          (x y : option error),
     t = t0
         ++ [ Entry (LogPrintf
                       ("Attempting to delete table %q..." ++ LF)%string
                       [VString (Plain.tableID f)]) tt;
              Entry (DeleteTable ac (Plain.tableID f)) None;
              Entry (LogPrintf ("Table %q deleted" ++ LF)%string
                       [VString (Plain.tableID f)]) tt;
              Entry (ClientClose dc) x;
              Entry (AdminClose ac) y ] /\
     Forall (fun en => selected isDeleteTable en = false) t0 /\
     In (Entry (NewClient (Plain.projectID f) (Plain.instanceID f)
                  [WithEndpoint Plain.cbtDataTestEndpoint]) (dc, None)) t0).
Proof.
  intros H; split.
  - eapply avoids_runs; [apply Plain_main_no_dial | exact H].
  - intros Hr; unfold Plain.main, Fatalf in H; run_inv H.
    destruct x0 as [ac [e |]]; run_inv H; [discriminate Hr |].
    destruct x0 as [dc [e |]]; run_inv H; [discriminate Hr |].
    cbn zeta in H; run_inv H.
    run_bind H tCT a HCT; destruct a as [e |]; run_inv H; [discriminate Hr |].
    run_bind H tW a HW; destruct a as [e |]; run_inv H; [discriminate Hr |].
    run_bind H tR1 a HR1; destruct a as [e |]; run_inv H;
      [discriminate Hr |].
    run_bind H tR2 a HR2; destruct a as [e |];
      [run_inv H; discriminate Hr |].
    cbn [runs bind mbind prog_bind call] in H.
    destruct H as (u & t' & -> & derr & t'' & -> & H).
    destruct derr as [e |]; run_inv H; [discriminate Hr |]; units.
    match goal with
    | |- context [Entry (ClientClose dc) ?x :: Entry (AdminClose ac) ?y :: _]
      => eexists _, ac, dc, x, y
    end.
    split; [suffix | split; [no_call |]].
    right; right; left; reflexivity.
Qed.

(** The run of the variant against the empty reference service. *)
Lemma Plain_main_deletes_witness :
  let f := {| Plain.projectID := "p"; Plain.instanceID := "i";
              Plain.tableID := "t"; Plain.columnFamily := "cf1";
              Plain.columnQualifier := "greeting";
              Plain.rowKeyPrefix := "row_key_" |} in
  let t := (exec Ref.answer (Plain.main f) ∅).1.1 in
  Forall (fun en => selected isDial en = false) t /\
  (Returned = Returned ->
   exists (t0 : list entry) (ac : option AdminClient) (dc : option Client)
          (x y : option error),
     t = t0
         ++ [ Entry (LogPrintf
                       ("Attempting to delete table %q..." ++ LF)%string
                       [VString (Plain.tableID f)]) tt;
              Entry (DeleteTable ac (Plain.tableID f)) None;
              Entry (LogPrintf ("Table %q deleted" ++ LF)%string
                       [VString (Plain.tableID f)]) tt;
              Entry (ClientClose dc) x;
              Entry (AdminClose ac) y ] /\
     Forall (fun en => selected isDeleteTable en = false) t0 /\
     In (Entry (NewClient (Plain.projectID f) (Plain.instanceID f)
                  [WithEndpoint Plain.cbtDataTestEndpoint]) (dc, None)) t0).
Proof.
  cbv zeta.
  match goal with
  | |- context [exec Ref.answer ?p ∅] =>
      pose proof (exec_runs Ref.answer p ∅) as H;
      replace (exec Ref.answer p ∅).1.2 with Returned in H
        by (vm_compute; reflexivity)
  end.
  exact (Plain_main_deletes _ _ _ H).
Defined.

(** ** The program that lists the tables *)

(** X10.  The program that lists the tables prints a list only in a run
    that returns, and the list it prints is the one that the admin client
    answered, with no error, to the one request for the tables.  It closes
    the client only in such a run, as its last call.  When the client
    cannot be made or the request fails, it exits with status 1 after one
    fatal log line that carries the error, without printing and without
    closing. *)
Theorem ListTables_main_outcomes (f : ListTables.flags)
    (t : list ListTables.entry) (r : exit) :
  ListTables.runs (ListTables.main f) t r ->
  exists (client : option AdminClient) (cerr : option error),
    hd_error t
    = Some (ListTables.Entry
              (ListTables.NewAdminClient (ListTables.project f)
                 (ListTables.cbtInstance f)) (client, cerr)) /\
    match cerr with
    | Some e =>
        r = Exited 1 /\
        tl t = [ListTables.Entry
                  (ListTables.LogFatalf
                     "Bigtable admin client creation failed: %v" [VError e])
                  tt]
    | None =>
        exists (tables : list string) (terr : option error),
          match terr with
          | Some e =>
              r = Exited 1 /\
              tl t = [ ListTables.Entry (ListTables.Tables client)
                         (tables, Some e);
                       ListTables.Entry
                         (ListTables.LogFatalf
                            "Failed to read tables using the Bigtable admin client: %v"
                            [VError e]) tt ]
          | None =>
              r = Returned /\
              exists (printed : Z * option error) (closed : option error),
                tl t = [ ListTables.Entry (ListTables.Tables client)
                           (tables, None);
                         ListTables.Entry (ListTables.Println tables)
                           printed;
                         ListTables.Entry (ListTables.Close client) closed ]
          end
    end.
Proof.
  unfold ListTables.main; simpl.
  intros ([client cerr] & t1 & -> & H); exists client, cerr.
  split; [reflexivity |]; destruct cerr as [e |]; simpl in *.
  - destruct H as ([] & t2 & -> & -> & ->); auto.
  - destruct H as ([tables terr] & t2 & -> & H); exists tables, terr.
    destruct terr as [e |]; simpl in *.
    + destruct H as ([] & t3 & -> & -> & ->); auto.
    + destruct H as (printed & t3 & -> & closed & t4 & -> & -> & ->).
      split; [reflexivity |]; exists printed, closed; reflexivity.
Qed.

(** A run in which the instance has two tables. *)
Lemma ListTables_main_outcomes_witness :
  let f := {| ListTables.project := "p"; ListTables.cbtInstance := "i" |} in
  let t :=
    [ ListTables.Entry (ListTables.NewAdminClient "p" "i")
        (Some (AdminClientRef 0), None);
      ListTables.Entry (ListTables.Tables (Some (AdminClientRef 0)))
        (["t1"; "t2"], None);
      ListTables.Entry (ListTables.Println ["t1"; "t2"]) (8%Z, None);
      ListTables.Entry (ListTables.Close (Some (AdminClientRef 0))) None ] in
  exists (client : option AdminClient) (cerr : option error),
    hd_error t
    = Some (ListTables.Entry
              (ListTables.NewAdminClient (ListTables.project f)
                 (ListTables.cbtInstance f)) (client, cerr)) /\
    match cerr with
    | Some e =>
        Returned = Exited 1 /\
        tl t = [ListTables.Entry
                  (ListTables.LogFatalf
                     "Bigtable admin client creation failed: %v" [VError e])
                  tt]
    | None =>
        exists (tables : list string) (terr : option error),
          match terr with
          | Some e =>
              Returned = Exited 1 /\
              tl t = [ ListTables.Entry (ListTables.Tables client)
                         (tables, Some e);
                       ListTables.Entry
                         (ListTables.LogFatalf
                            "Failed to read tables using the Bigtable admin client: %v"
                            [VError e]) tt ]
          | None =>
              Returned = Returned /\
              exists (printed : Z * option error) (closed : option error),
                tl t = [ ListTables.Entry (ListTables.Tables client)
                           (tables, None);
                         ListTables.Entry (ListTables.Println tables)
                           printed;
                         ListTables.Entry (ListTables.Close client) closed ]
          end
    end.
Proof.
  cbv zeta.
  apply (ListTables_main_outcomes
           {| ListTables.project := "p"; ListTables.cbtInstance := "i" |}).
  simpl.
  repeat (eexists _, _; split; [reflexivity |]); split; reflexivity.
Defined.

(** ** The one table of a run *)

Section AvoidsOnTable.
Variable P : selector.
Variable tableID : string.
Hypothesis P_LogPrintf : forall f args, P _ (LogPrintf f args) = false.
Hypothesis P_Now : P _ Now = false.
Hypothesis P_Open : forall c, P _ (Open c tableID) = false.
Hypothesis P_Apply : forall t row m, P _ (Apply t row m) = false.
Hypothesis P_ReadRow : forall t row, P _ (ReadRow t row) = false.
Hypothesis P_ReadRows : forall t rs, P _ (ReadRows t rs) = false.

Lemma avoids_writeToTable_on (client : option Client)
    (cf cq rowKeyPrefix : string) :
  avoids P (writeToTable client tableID cf cq rowKeyPrefix).
Proof.
  unfold writeToTable; cbn [avoids bind mbind prog_bind call].
  split; [apply P_Open |]; intros [tb |]; [| exact I].
  generalize 0%Z; induction greetings as [| g todo IH]; intros i;
    cbn [writeLoop avoids bind mbind prog_bind call]; [exact I |].
  split; [apply P_Now |]; intros ts.
  split; [apply P_Apply |]; intros [e |]; [exact I |].
  cbn [avoids bind]; split; [apply P_LogPrintf |]; intros _; apply IH.
Qed.

Lemma avoids_readSingleRowFromTable_on (client : option Client)
    (rowKeyPrefix : string) :
  avoids P (readSingleRowFromTable client tableID rowKeyPrefix).
Proof.
  unfold readSingleRowFromTable; cbn [avoids bind mbind prog_bind call].
  split; [apply P_Open |]; intros [tb |]; [| exact I].
  cbn [avoids bind mbind prog_bind call].
  split; [apply P_ReadRow |]; intros [row [e |]]; [exact I |].
  apply avoids_bind; [apply avoids_logRow; exact P_LogPrintf |].
  intros _; exact I.
Qed.

Lemma avoids_readEntireTable_on (client : option Client)
    (rowKeyPrefix : string) :
  avoids P (readEntireTable client tableID rowKeyPrefix).
Proof.
  unfold readEntireTable, Table_ReadRows;
    cbn [avoids bind mbind prog_bind call].
  split; [apply P_Open |]; intros [tb |]; [| exact I].
  cbn [avoids bind mbind prog_bind call].
  split; [apply P_ReadRows |]; intros [rows err].
  apply avoids_bind.
  - apply avoids_bind; [| intros all; exact I].
    induction rows as [| row rows IH]; cbn [feedRows]; [exact I |].
    apply avoids_bind.
    + apply avoids_bind; [apply avoids_logRow; exact P_LogPrintf |].
      intros _; exact I.
    + intros [|]; [exact IH | exact I].
  - intros [e |]; exact I.
Qed.
End AvoidsOnTable.

Lemma namesOther_same (tableID family : string) :
  (forall c, namesOther tableID family _ (TableInfo c tableID) = false) /\
  (forall c, namesOther tableID family _ (CreateTable c tableID) = false) /\
  (forall c, namesOther tableID family _ (DeleteTable c tableID) = false) /\
  (forall c, namesOther tableID family _ (Open c tableID) = false) /\
  (forall c,
     namesOther tableID family _ (CreateColumnFamily c tableID family)
     = false).
Proof.
  unfold namesOther; rewrite !String.eqb_refl; repeat split.
Qed.

Lemma createTable_names (ac : option AdminClient) (tableID cf : string) :
  avoids (namesOther tableID cf) (createTable ac tableID cf).
Proof.
  destruct (namesOther_same tableID cf) as (HI & HC & _ & _ & HF).
  unfold createTable; cbn [avoids bind mbind prog_bind call].
  split; [apply HI |]; intros [e |]; [| exact I].
  destruct (FromError e) as [s |]; [| exact I].
  destruct (negb (codes.eqb (Code s) codes.NotFound)); [exact I |].
  cbn [avoids bind mbind prog_bind call].
  split; [apply HC |]; intros [e1 |]; [exact I |].
  cbn [avoids bind mbind prog_bind call].
  split; [apply HF |]; intros [e2 |]; exact I.
Qed.

Lemma createDataClient_names
    (project instance endpoint appProfile tableID cf : string)
    (enable : bool) :
  avoids (namesOther tableID cf)
    (createDataClient project instance endpoint appProfile enable).
Proof. unfold createDataClient; avoids_tac. Qed.

Lemma main_names (f : flag.t) :
  avoids (namesOther (flag.tableID f) (flag.columnFamily f)) (main f).
Proof.
  destruct (namesOther_same (flag.tableID f) (flag.columnFamily f))
    as (_ & _ & HD & HO & _).
  assert (HW := avoids_writeToTable_on
                  (namesOther (flag.tableID f) (flag.columnFamily f))
                  (flag.tableID f) (fun _ _ => eq_refl) eq_refl HO
                  (fun _ _ _ => eq_refl)).
  assert (HR1 := avoids_readSingleRowFromTable_on
                   (namesOther (flag.tableID f) (flag.columnFamily f))
                   (flag.tableID f) (fun _ _ => eq_refl) HO
                   (fun _ _ => eq_refl)).
  assert (HR2 := avoids_readEntireTable_on
                   (namesOther (flag.tableID f) (flag.columnFamily f))
                   (flag.tableID f) (fun _ _ => eq_refl) HO
                   (fun _ _ => eq_refl)).
  pose proof (createTable_names) as HCT.
  pose proof (createDataClient_names) as HDC.
  unfold main, Fatalf.
  repeat first
    [ exact I
    | progress cbn [avoids bind mbind prog_bind call mret prog_ret]
    | match goal with
      | |- forall _, _ => intros ?
      | |- namesOther _ _ _ (DeleteTable _ _) = false /\ _ =>
          split; [apply HD |]
      | |- _ /\ _ => split; [reflexivity |]
      | |- avoids _ (bind _ _) => apply avoids_bind; [solve [auto] |]
      | |- avoids _ (mbind _ _) => apply avoids_bind; [solve [auto] |]
      | |- context [match ?x with _ => _ end] => destruct x
      | |- context [if ?b then _ else _] => destruct b
      end ].
Qed.

(** X11.  Every call of a run of [main] that names a table names the table
    of the flags: the existence check, the creations, the deletion and
    the opening of the table for the data all go to this one table, and
    the only column family that is created is the one of the flags. *)
Theorem main_one_table (f : flag.t) (t : list entry) (r : exit) :
  runs (main f) t r ->
  Forall (fun en =>
            selected (namesOther (flag.tableID f) (flag.columnFamily f)) en
            = false) t.
Proof. apply avoids_runs, main_names. Qed.

(** The run of [main] with the default flags against the empty reference
    service. *)
Lemma main_one_table_witness :
  Forall (fun en =>
            selected (namesOther (flag.tableID flag.defaults)
                        (flag.columnFamily flag.defaults)) en = false)
    (exec Ref.answer (main flag.defaults) ∅).1.1.
Proof.
  exact (main_one_table flag.defaults _ _
           (exec_runs Ref.answer (main flag.defaults) ∅)).
Defined.
